(** * ClearSight source prediction: ingestion jobs and validation suite

    A shallow embedding of

    - [test_comprehensive_attribution.py]: the validation suite of the
      attribution modulation engine ([TEST_CASES], [run_test]);
    - [fetch_cpcb_live.py]: the live feed ingester ([parse_rss_feed],
      [normalize_station_name], [find_matching_station],
      [update_station_csv]);
    - [backfill_wind.py]: the meteorology backfill job
      ([get_station_timestamps], [main]);

    together with a model of the engine's Aggregator, which the
    repository excerpt only reaches over HTTP.

    Conventions.  Python floats are embedded as rationals [Q]: every
    comparison the code makes on them ([>=], [<=], [>]) is exact on the
    values compared.  Python dictionaries are [gmap]s with string keys,
    pandas data frames are lists of row records, and a Python call that
    may raise is a value of [outcome]. *)

From Stdlib Require Import QArith Qabs Lqa Ascii String.
From stdpp Require Import gmap strings list sorting fin_maps.

Local Open Scope string_scope.
Local Set Warnings "-register-all".

(** ** Exceptions *)

Inductive exn : Type :=
  | KeyError (key : string)
  | NameError (name : string)
  | ValueError
  | ParseError
  | EmptyDataError
  | FileNotFoundError
  | UnicodeEncodeError.

Inductive outcome (A : Type) : Type :=
  | Return (a : A)
  | Raise (e : exn).

Arguments Return {A} a.
Arguments Raise {A} e.

#[global] Instance outcome_ret : MRet outcome := fun A a => Return a.

#[global] Instance outcome_bind : MBind outcome := fun A B k m =>
  match m with
  | Return a => k a
  | Raise e => Raise e
  end.

(** [d[key]] on a field of a JSON object that may be absent. *)
Definition subscript {A : Type} (key : string) (field : option A) : outcome A :=
  match field with
  | Some a => Return a
  | None => Raise (KeyError key)
  end.

(** [try: body except E: handler], where [caught] recognises [E]. *)
Definition try_except {A : Type} (body : outcome A) (caught : exn -> bool)
    (handler : outcome A) : outcome A :=
  match body with
  | Return a => Return a
  | Raise e => if caught e then handler else Raise e
  end.

Definition is_ParseError (e : exn) : bool :=
  match e with ParseError => true | _ => false end.

Definition is_ValueError (e : exn) : bool :=
  match e with ValueError => true | _ => false end.

(** A [for] loop whose body updates the loop state and may raise. *)
Fixpoint for_loop {S A : Type} (body : S -> A -> outcome S) (l : list A) (s : S)
    : outcome S :=
  match l with
  | [] => Return s
  | a :: l' => s' ← body s a; for_loop body l' s'
  end.

(** * The validation suite ([test_comprehensive_attribution.py]) *)

Module Suite.

(** One entry of the response's [contributions] object, with values of
    the kinds the engine emits: numbers and strings.  A field the JSON
    object lacks is [None]; a field that is present with the value
    [null] has no counterpart here. *)
Record source_data : Type := {
  percentage : option Q;
  prior : option Q;
  modulation_factor : option Q;
  level : option string;
  explanation : option string
}.

(** The decoded response body; [contributions] may be absent. *)
Record response : Type := {
  contributions : option (gmap string source_data)
}.

Record readings : Type := {
  PM25 : option Q; PM10 : option Q; NO2 : option Q;
  SO2 : option Q; CO : option Q
}.

Record test_case : Type := {
  name : string;
  timestamp : string;
  test_readings : readings;
  wind_dir : Q;
  wind_speed : Q;
  blh : Q;
  fire_count : Z;
  expected_high : list string;
  expected_low : list string
}.

(** [source_data.get('percentage', 0)] and [source_data.get('level', '')]
    on [contributions.get(expected, {})]. *)
Definition get_percentage (c : gmap string source_data) (expected : string) : Q :=
  match c !! expected with
  | Some d => default 0%Q (percentage d)
  | None => 0%Q
  end.

Definition get_level (c : gmap string source_data) (expected : string) : string :=
  match c !! expected with
  | Some d => default "" (level d)
  | None => ""
  end.

(** [level in ['High', 'Medium'] or pct >= 15] *)
Definition check_high (c : gmap string source_data) (expected : string) : bool :=
  let pct := get_percentage c expected in
  let lvl := get_level c expected in
  (String.eqb lvl "High" || String.eqb lvl "Medium") || Qle_bool 15 pct.

(** [pct <= 12] *)
Definition check_low (c : gmap string source_data) (expected : string) : bool :=
  Qle_bool (get_percentage c expected) 12.

(** The display loop reads [data['percentage']], [data['prior']],
    [data['modulation_factor']] and [data['level']] of every entry with a
    subscript, and [explanation] with [.get]; the sort key reads
    [percentage] first.  Only its exceptions matter to the verdict; the
    order in which the entries are visited (descending percentage in the
    source) decides no more than which missing key the [KeyError] names. *)
Definition display_entry (d : source_data) : outcome unit :=
  subscript "percentage" (percentage d) ;;
  subscript "prior" (prior d) ;;
  subscript "modulation_factor" (modulation_factor d) ;;
  subscript "level" (level d) ;;
  Return tt.

Fixpoint for_each {A : Type} (f : A -> outcome unit) (l : list A) : outcome unit :=
  match l with
  | [] => Return tt
  | a :: l' => f a ;; for_each f l'
  end.

Definition display (c : gmap string source_data) : outcome unit :=
  let items := map_to_list c in
  for_each (fun kv => subscript "percentage" (percentage kv.2) ;; Return tt) items ;;
  for_each (fun kv => display_entry kv.2) items.

(** The two validation loops: [passed] starts [True] and is set to
    [False] by every failed check. *)
Definition validate_loop (check : string -> bool) (expected : list string)
    (passed : bool) : bool :=
  fold_left (fun p e => if check e then p else false) expected passed.

(** [run_test]; [api] is [None] when the request, the status check or
    the JSON decoding raised (the [except Exception] branch). *)
Definition run_test (tc : test_case) (api : option response) : outcome bool :=
  match api with
  | None => Return false
  | Some result =>
      let c := default ∅ (contributions result) in
      display c ;;
      let passed := true in
      let passed := validate_loop (check_high c) (expected_high tc) passed in
      let passed := validate_loop (check_low c) (expected_low tc) passed in
      Return passed
  end.

(** [TEST_CASES], in the order of the source. *)

Definition test_1 : test_case := {|
  name := "1. Feb Cold Winter Morning Rush";
  timestamp := "2025-02-27T09:00:00";
  test_readings := {| PM25 := Some 240%Q; PM10 := Some 380%Q; NO2 := Some 78%Q;
                      SO2 := Some 15%Q; CO := Some 2.16%Q |};
  wind_dir := 30%Q; wind_speed := 7.9%Q; blh := 105%Q; fire_count := 1%Z;
  expected_high := ["secondary_aerosols"];
  expected_low := ["stubble_burning"]
|}.

Definition test_2 : test_case := {|
  name := "2. Mar Pre-Monsoon Afternoon";
  timestamp := "2025-03-09T14:00:00";
  test_readings := {| PM25 := Some 155%Q; PM10 := Some 280%Q; NO2 := Some 35%Q;
                      SO2 := Some 12%Q; CO := Some 1.11%Q |};
  wind_dir := 98%Q; wind_speed := 5.1%Q; blh := 2100%Q; fire_count := 31%Z;
  expected_high := [];
  expected_low := ["stubble_burning"]
|}.

Definition test_3 : test_case := {|
  name := "3. May Summer Afternoon";
  timestamp := "2025-05-16T16:00:00";
  test_readings := {| PM25 := Some 100%Q; PM10 := Some 200%Q; NO2 := Some 84%Q;
                      SO2 := Some 12%Q; CO := Some 1.32%Q |};
  wind_dir := 298%Q; wind_speed := 6.9%Q; blh := 5110%Q; fire_count := 2189%Z;
  expected_high := [];
  expected_low := ["stubble_burning"]
|}.

Definition test_4 : test_case := {|
  name := "4. Aug Monsoon Morning";
  timestamp := "2025-08-22T08:00:00";
  test_readings := {| PM25 := Some 177%Q; PM10 := Some 280%Q; NO2 := Some 30%Q;
                      SO2 := Some 10%Q; CO := Some 1.89%Q |};
  wind_dir := 96%Q; wind_speed := 3.6%Q; blh := 815%Q; fire_count := 2%Z;
  expected_high := [];
  expected_low := ["stubble_burning"]
|}.

Definition test_5 : test_case := {|
  name := "5. Sep Post-Monsoon Night";
  timestamp := "2025-09-14T01:00:00";
  test_readings := {| PM25 := Some 193%Q; PM10 := Some 310%Q; NO2 := Some 48%Q;
                      SO2 := Some 14%Q; CO := Some 2.45%Q |};
  wind_dir := 180%Q; wind_speed := 2.2%Q; blh := 340%Q; fire_count := 12%Z;
  expected_high := ["secondary_aerosols"];
  expected_low := ["stubble_burning"]
|}.

Definition test_6 : test_case := {|
  name := "6. Oct Early Stubble Season";
  timestamp := "2025-10-19T06:00:00";
  test_readings := {| PM25 := Some 373%Q; PM10 := Some 480%Q; NO2 := Some 34%Q;
                      SO2 := Some 15%Q; CO := Some 2.86%Q |};
  wind_dir := 230%Q; wind_speed := 2.8%Q; blh := 100%Q; fire_count := 222%Z;
  expected_high := ["secondary_aerosols"];
  expected_low := []
|}.

Definition test_7 : test_case := {|
  name := "7. Oct Diwali Night PEAK";
  timestamp := "2025-10-21T02:00:00";
  test_readings := {| PM25 := Some 1440%Q; PM10 := Some 1600%Q; NO2 := Some 75%Q;
                      SO2 := Some 22%Q; CO := Some 2.57%Q |};
  wind_dir := 270%Q; wind_speed := 2.2%Q; blh := 295%Q; fire_count := 247%Z;
  expected_high := ["secondary_aerosols"];
  expected_low := ["dust"]
|}.

Definition test_8 : test_case := {|
  name := "8. Nov Peak Stubble Morning";
  timestamp := "2025-11-08T10:00:00";
  test_readings := {| PM25 := Some 546%Q; PM10 := Some 680%Q; NO2 := Some 127%Q;
                      SO2 := Some 18%Q; CO := Some 4.36%Q |};
  wind_dir := 283%Q; wind_speed := 6.3%Q; blh := 595%Q; fire_count := 356%Z;
  expected_high := ["stubble_burning"; "traffic"];
  expected_low := []
|}.

Definition test_9 : test_case := {|
  name := "9. Nov Wedding Season Night";
  timestamp := "2025-11-01T21:00:00";
  test_readings := {| PM25 := Some 448%Q; PM10 := Some 560%Q; NO2 := Some 140%Q;
                      SO2 := Some 18%Q; CO := Some 6.16%Q |};
  wind_dir := 240%Q; wind_speed := 2.9%Q; blh := 225%Q; fire_count := 288%Z;
  expected_high := ["secondary_aerosols"];
  expected_low := []
|}.

Definition test_10 : test_case := {|
  name := "10. Dec Severe Winter Night Inversion";
  timestamp := "2025-12-02T00:00:00";
  test_readings := {| PM25 := Some 439%Q; PM10 := Some 550%Q; NO2 := Some 166%Q;
                      SO2 := Some 28%Q; CO := Some 7.52%Q |};
  wind_dir := 104%Q; wind_speed := 1.5%Q; blh := 70%Q; fire_count := 167%Z;
  expected_high := ["secondary_aerosols"];
  expected_low := ["stubble_burning"]
|}.

Definition test_11 : test_case := {|
  name := "11. Dec Industrial Morning";
  timestamp := "2025-12-02T10:00:00";
  test_readings := {| PM25 := Some 330%Q; PM10 := Some 420%Q; NO2 := Some 172%Q;
                      SO2 := Some 30%Q; CO := Some 3.75%Q |};
  wind_dir := 63%Q; wind_speed := 0.8%Q; blh := 410%Q; fire_count := 167%Z;
  expected_high := ["traffic"; "secondary_aerosols"];
  expected_low := ["stubble_burning"]
|}.

Definition test_12 : test_case := {|
  name := "12. Nov High Fires but EAST Wind";
  timestamp := "2025-11-05T01:00:00";
  test_readings := {| PM25 := Some 138%Q; PM10 := Some 200%Q; NO2 := Some 77%Q;
                      SO2 := Some 15%Q; CO := Some 3.61%Q |};
  wind_dir := 114%Q; wind_speed := 3.5%Q; blh := 270%Q; fire_count := 316%Z;
  expected_high := ["secondary_aerosols"];
  expected_low := ["stubble_burning"]
|}.

Definition TEST_CASES : list test_case :=
  [test_1; test_2; test_3; test_4; test_5; test_6;
   test_7; test_8; test_9; test_10; test_11; test_12].

(** What the two checks decide, as propositions. *)
Definition elevated (c : gmap string source_data) (src : string) : Prop :=
  get_level c src = "High" \/ get_level c src = "Medium" \/
  (15 <= get_percentage c src)%Q.

Definition low (c : gmap string source_data) (src : string) : Prop :=
  (get_percentage c src <= 12)%Q.

(** Two responses to run the suite on.  In [response_high] the
    trapping-driven source is reported [High]; in [response_medium] it is
    reported [Medium] at 20 percent. *)
Definition entry (pct pri fac : Q) (lvl : string) : source_data :=
  {| percentage := Some pct; prior := Some pri; modulation_factor := Some fac;
     level := Some lvl; explanation := Some "" |}.

Definition response_high : response :=
  {| contributions := Some
       (<["secondary_aerosols" := entry 45 30 2 "High"]>
        (<["traffic" := entry 35 30 1 "High"]>
        (<["dust" := entry 12 16 (1 # 2) "Low"]>
        (<["stubble_burning" := entry 4 20 (1 # 10) "Low"]>
        (<["local_combustion" := entry 4 4 1 "Low"]> ∅))))) |}.

Definition response_medium : response :=
  {| contributions := Some
       (<["secondary_aerosols" := entry 20 30 1 "Medium"]>
        (<["traffic" := entry 40 30 2 "High"]>
        (<["dust" := entry 29 16 2 "Medium"]>
        (<["stubble_burning" := entry 4 20 (1 # 10) "Low"]>
        (<["local_combustion" := entry 7 4 2 "Low"]> ∅))))) |}.

(** ** [main] of the suite *)

(** The loop of [main] over the test cases; [api] gives, for the request
    of each case, what [run_test] gets back ([None] for a failed call).
    An exception of [run_test] ends the loop. *)
Definition run_all (api : test_case -> option response) (cases : list test_case)
    : outcome (list (string * bool)) :=
  for_loop
    (fun results tc =>
       passed ← run_test tc (api tc);
       Return (results ++ [(name tc, passed)])%list)
    cases [].

(** [main]: [passed_count == total].  [total] is 12, so the percentage
    of the summary line divides by a non-zero number. *)
Definition main (api : test_case -> option response) : outcome bool :=
  results ← run_all api TEST_CASES;
  let passed_count := length (filter (fun r => r.2 = true) results) in
  let total := length results in
  Return (bool_decide (passed_count = total)).

(** [sys.exit(0 if success else 1)] *)
Definition exit_code (success : bool) : Z := if success then 0%Z else 1%Z.

(** A response in which the combustion source is elevated too, and an
    engine that answers test 8 with it and every other test with
    [response_high]. *)
Definition response_stubble : response :=
  {| contributions := Some
       (<["stubble_burning" := entry 38 20 3 "High"]>
        (<["traffic" := entry 30 30 (3 # 2) "High"]>
        (<["secondary_aerosols" := entry 20 30 1 "Medium"]>
        (<["dust" := entry 8 16 (1 # 2) "Low"]>
        (<["local_combustion" := entry 4 4 1 "Low"]> ∅))))) |}.

Definition sample_api (tc : test_case) : option response :=
  if bool_decide ("stubble_burning" ∈ expected_high tc)
  then Some response_stubble else Some response_high.

(** A response whose only entry has no [percentage]. *)
Definition response_incomplete : response :=
  {| contributions := Some
       {["traffic" := {| percentage := None; prior := Some 30%Q;
                         modulation_factor := Some 1%Q; level := Some "High";
                         explanation := None |}]} |}.

(** An entry that has the four fields the display loop subscripts. *)
Definition complete (d : source_data) : Prop :=
  is_Some (percentage d) /\ is_Some (prior d) /\
  is_Some (modulation_factor d) /\ is_Some (level d).

End Suite.

(** * The attribution engine's Aggregator *)

Module Engine.

(** Modelled from the spec: a Source Catalog entry (section 3), reduced to
    the two fields the Aggregator reads.  The engine's code is not part
    of the repository excerpt. *)
Record Source : Type := {
  id : string;
  prior_percentage : Q
}.

(** Modelled from the spec: the severity levels of a ContributionResult. *)
Inductive Level : Type := Low | Medium | High.

(** Modelled from the spec: a ContributionResult (section 3), without its
    explanation text. *)
Record ContributionResult : Type := {
  source_id : string;
  result_prior : Q;
  result_factor : Q;
  result_percentage : Q;
  result_level : Level
}.

(** Modelled from the spec: the only failure of the Aggregator
    (section 4.4, step 2). *)
Inductive ComputationError : Type := ZeroTotalWeight.

(** Modelled from the spec: the clamp of a modulation factor to
    [[floor, ceiling]] (section 4.3). *)
Definition clamp (floor ceiling x : Q) : Q :=
  if Qle_bool x floor then floor
  else if Qle_bool ceiling x then ceiling
  else x.

(** Modelled from the spec: level assignment (section 4.4, step 3): High
    from 30, Medium from 15, Low below. *)
Definition assign_level (p : Q) : Level :=
  if Qle_bool 30 p then High
  else if Qle_bool 15 p then Medium
  else Low.

(** Modelled from the spec: the [sum] of section 4.4, over rationals. *)
Definition Qsum (l : list Q) : Q := foldr Qplus 0%Q l.

Section Scoring.

(** The request and the per-source rules of the Modulation Rule Set are
    left open: the spec fixes neither the rule formulas nor their
    constants, only that every factor is clamped. *)
Variable Request : Type.
Variable rule : Source -> Request -> Q.
Variables floor ceiling : Q.

(** Modelled from the spec: the modulation factor of a source, the
    rule's value clamped to [[floor, ceiling]] (section 4.3). *)
Definition modulation_factor (req : Request) (s : Source) : Q :=
  clamp floor ceiling (rule s req).

(** Modelled from the spec: [weighted = prior_percentage * modulation_factor]
    (section 4.4, step 1). *)
Definition weighted (req : Request) (s : Source) : Q :=
  (prior_percentage s * modulation_factor req s)%Q.

(** Modelled from the spec: [sum(all weighted)] (section 4.4, step 2). *)
Definition total_weight (catalog : list Source) (req : Request) : Q :=
  Qsum (map (weighted req) catalog).

(** Modelled from the spec: the Aggregator (section 4.4, steps 1 to 3):
    [percentage = 100 * weighted / sum(all weighted)], failing only on a
    zero sum. *)
Definition aggregate (catalog : list Source) (req : Request)
    : ComputationError + list ContributionResult :=
  let total := total_weight catalog req in
  if Qeq_bool total 0 then inl ZeroTotalWeight
  else inr (map (fun s =>
         let pct := (100 * weighted req s / total)%Q in
         {| source_id := id s;
            result_prior := prior_percentage s;
            result_factor := modulation_factor req s;
            result_percentage := pct;
            result_level := assign_level pct |}) catalog).

End Scoring.

(** Modelled from the spec: the sum of the [percentage] fields of a
    response (sections 6 and 8). *)
Definition sum_percentage (results : list ContributionResult) : Q :=
  Qsum (map result_percentage results).

(** Modelled from the spec: the catalog invariant checked at load time
    (section 3): priors lie in [[0, 100]] and sum to 100. *)
Definition catalog_valid (catalog : list Source) : Prop :=
  Forall (fun s => (0 <= prior_percentage s)%Q) catalog /\
  (Qsum (map prior_percentage catalog) == 100)%Q.

(** A catalog and a rule set to run the Aggregator on.  The spec gives
    neither the priors nor the rule formulas; these values are
    illustrative (the clamp range is the spec's example [[0.1, 3.0]]). *)
Definition example_catalog : list Source :=
  [ {| id := "stubble_burning"; prior_percentage := 20 |};
    {| id := "traffic"; prior_percentage := 30 |};
    {| id := "secondary_aerosols"; prior_percentage := 30 |};
    {| id := "dust"; prior_percentage := 16 |};
    {| id := "local_combustion"; prior_percentage := 4 |} ].

Definition example_rule (s : Source) (tc : Suite.test_case) : Q :=
  if String.eqb (id s) "stubble_burning" then inject_Z (Suite.fire_count tc) / 100
  else if String.eqb (id s) "secondary_aerosols" then 300 / Suite.blh tc
  else 1.

End Engine.

(** * Python string methods

    Strings are byte strings; the methods below agree with Python's on
    ASCII text, which is what the station names and the feed's attribute
    values are made of. *)

Module PyStr.

(** [str.lower] on one character. *)
Definition lower_char (c : ascii) : ascii :=
  let n := nat_of_ascii c in
  if (65 <=? n)%nat && (n <=? 90)%nat then ascii_of_nat (n + 32) else c.

Fixpoint lower (s : string) : string :=
  match s with
  | EmptyString => EmptyString
  | String c s' => String (lower_char c) (lower s')
  end.

(** [str.isspace] on one character: space, tab to carriage return, and
    the four separators 28 to 31. *)
Definition isspace (c : ascii) : bool :=
  let n := nat_of_ascii c in
  (n =? 32)%nat || ((9 <=? n)%nat && (n <=? 13)%nat)
  || ((28 <=? n)%nat && (n <=? 31)%nat).

Fixpoint lstrip (s : string) : string :=
  match s with
  | EmptyString => EmptyString
  | String c s' => if isspace c then lstrip s' else s
  end.

Fixpoint rstrip (s : string) : string :=
  match s with
  | EmptyString => EmptyString
  | String c s' =>
      match rstrip s' with
      | EmptyString => if isspace c then EmptyString else String c EmptyString
      | r => String c r
      end
  end.

(** [str.strip()] *)
Definition strip (s : string) : string := rstrip (lstrip s).

(** [str.replace(old, new)] for a non-empty [old]: occurrences are
    replaced from left to right without overlap.  [skip] counts the
    characters of a matched occurrence still to be dropped. *)
Fixpoint replace_from (old new : string) (skip : nat) (s : string) : string :=
  match s with
  | EmptyString => EmptyString
  | String c s' =>
      match skip with
      | S k => replace_from old new k s'
      | O =>
          if String.prefix old s
          then String.append new (replace_from old new (String.length old - 1) s')
          else String c (replace_from old new 0 s')
      end
  end.

Definition replace (old new s : string) : string := replace_from old new 0 s.

(** [str.isascii()]: every character is below 128.  On such strings
    [lower], [isspace] and [strip] above are Python's. *)
Definition isascii (s : string) : bool :=
  forallb (fun c => (nat_of_ascii c <? 128)%nat) (list_ascii_of_string s).

End PyStr.

(** * The live feed ingester ([fetch_cpcb_live.py]) *)

Module Fetch.

(** [POLLUTANT_MAP]: feed pollutant id to CSV column, in source order. *)
Definition POLLUTANT_MAP : list (string * string) :=
  [ ("PM2.5", "PM25"); ("PM10", "PM10"); ("NO2", "NO2"); ("SO2", "SO2");
    ("CO", "CO"); ("OZONE", "O3"); ("NH3", "NH3") ].

Definition STATION_DATA_DIR : string := "data/raw/station_data".

(** ** [normalize_station_name] *)

Definition suffixes : list string :=
  [" - dpcc"; " - cpcb"; " - imd"; " - uppcb"; " - hspcb"; " - rspcb"; " - iitm"].

Definition normalize_station_name (name : string) : string :=
  let name := PyStr.strip (PyStr.lower name) in
  let name := fold_left (fun name suffix => PyStr.replace suffix "" name) suffixes name in
  let name := PyStr.replace "  " " " (PyStr.replace "," "" name) in
  PyStr.strip name.

(** ** [find_matching_station] *)

(** A row of [stations_metadata.csv]. *)
Record station_row : Type := {
  station_id : Z;
  station_name : string;
  lat : Q;
  lon : Q;
  filename : string
}.

Definition Qlt_bool (x y : Q) : bool := negb (Qle_bool y x).

Section Matching.

(** [SequenceMatcher(None, a, b).ratio()] of [difflib], as the rational
    it denotes; the threshold [0.6] is compared as [6 # 10]. *)
Variable ratio : string -> string -> Q.

(** [score] of a row against the normalised feed name. *)
Definition score_of (rss_normalized : string) (row : station_row) : Q :=
  ratio rss_normalized (normalize_station_name (station_name row)).

(** The loop over [our_stations.iterrows()], with the loop variables
    [best_match] and [best_score] as accumulators; [return row] leaves
    the loop at once. *)
Fixpoint find_loop (rss_normalized : string) (rows : list station_row)
    (best_match : option station_row) (best_score : Q) : option station_row :=
  match rows with
  | [] => best_match
  | row :: rest =>
      let our_normalized := normalize_station_name (station_name row) in
      if String.eqb rss_normalized our_normalized then Some row
      else
        let score := ratio rss_normalized our_normalized in
        if Qlt_bool best_score score && Qlt_bool (6 # 10) score
        then find_loop rss_normalized rest (Some row) score
        else find_loop rss_normalized rest best_match best_score
  end.

Definition find_matching_station (rss_name : string)
    (our_stations : list station_row) : option station_row :=
  find_loop (normalize_station_name rss_name) our_stations None 0.

End Matching.

(** ** [parse_rss_feed] *)

(** An [xml.etree.ElementTree.Element]: tag, attributes, children. *)
Inductive element : Type :=
  | Element (tag : string) (attrib : gmap string string) (children : list element).

Definition tag (e : element) : string := let 'Element t _ _ := e in t.
Definition attrib (e : element) : gmap string string := let 'Element _ a _ := e in a.
Definition children (e : element) : list element := let 'Element _ _ c := e in c.

(** [e.get(key)] *)
Definition get (e : element) (key : string) : option string := attrib e !! key.

(** [e.iter()]: the element and all its descendants, in document order. *)
Fixpoint iter_all (e : element) : list element :=
  match e with
  | Element _ _ cs => e :: flat_map iter_all cs
  end.

(** [e.iter(t)] *)
Definition iter (t : string) (e : element) : list element :=
  filter (fun d => tag d = t) (iter_all e).

(** [e.findall(t)] and [e.find(t)]: direct children only. *)
Definition findall (t : string) (e : element) : list element :=
  filter (fun d => tag d = t) (children e).

Definition find (t : string) (e : element) : option element :=
  head (findall t e).

(** A Python float. *)
Inductive pyfloat : Type :=
  | Finite (q : Q)
  | Infinity (negative : bool)
  | NaN.

(** A value of a station's [pollutants] dictionary: the float of an
    hourly sub-index, or, under the key ["AQI"], whatever
    [aqi_elem.get("Value")] returned. *)
Inductive pvalue : Type :=
  | PFloat (f : pyfloat)
  | PAttr (v : option string).

(** A naive [datetime], in seconds. *)
Definition datetime : Type := Z.

(** An entry of [stations_data]. *)
Record station_data : Type := {
  timestamp : datetime;
  feed_lat : option string;
  feed_lon : option string;
  pollutants : gmap string pvalue
}.

(** Truth value of [x] for [x = e.get(key)]: [None] and the empty string
    are false. *)
Definition truthy (x : option string) : bool :=
  match x with
  | Some s => negb (String.eqb s "")
  | None => false
  end.

Section Parsing.

(** The library calls of [parse_rss_feed]: [ET.fromstring],
    [datetime.strptime] (with its format) and [float]. *)
Variable fromstring : string -> outcome element.
Variable strptime : string -> string -> outcome datetime.
Variable float : string -> outcome pyfloat.

(** Body of the loop over [station.findall("Pollutant_Index")]. *)
Definition pollutant_step (pollutants : gmap string pvalue) (pollutant : element)
    : outcome (gmap string pvalue) :=
  let poll_id := get pollutant "id" in
  let hourly_value := get pollutant "Hourly_sub_index" in
  if truthy poll_id && truthy hourly_value
     && negb (bool_decide (hourly_value = Some "NA"))
  then
    try_except
      (v ← float (default "" hourly_value);
       Return (<[default "" poll_id := PFloat v]> pollutants))
      is_ValueError
      (Return pollutants)
  else Return pollutants.

(** Body of the loop over [root.iter("Station")]; [continue] returns
    the dictionary as it is. *)
Definition station_step (stations_data : gmap string station_data)
    (station : element) : outcome (gmap string station_data) :=
  let station_id := get station "id" in
  let lastupdate := get station "lastupdate" in
  let lat := get station "latitude" in
  let lon := get station "longitude" in
  if negb (truthy station_id) || negb (truthy lastupdate)
  then Return stations_data
  else
    parsed ← try_except
               (t ← strptime (default "" lastupdate) "%d-%m-%Y %H:%M:%S";
                Return (Some t))
               is_ValueError
               (Return None);
    match parsed with
    | None => Return stations_data
    | Some timestamp =>
        pollutants ← for_loop pollutant_step
                       (findall "Pollutant_Index" station) ∅;
        let pollutants :=
          match find "Air_Quality_Index" station with
          | Some aqi_elem => <["AQI" := PAttr (get aqi_elem "Value")]> pollutants
          | None => pollutants
          end in
        Return (<[default "" station_id :=
                   {| timestamp := timestamp; feed_lat := lat; feed_lon := lon;
                      pollutants := pollutants |}]> stations_data)
    end.

Definition parse_rss_feed (xml_content : string)
    : outcome (gmap string station_data) :=
  try_except
    (root ← fromstring xml_content;
     for_loop station_step (iter "Station" root) ∅)
    is_ParseError
    (Return ∅).

(** Where the contents of the result come from.  A float stored
    under [k] stems from a [Pollutant_Index] element of [l] with id [k]
    whose hourly value is not "NA" and is read by [float]. *)
Definition float_origin (l : list element) (k : string) (f : pyfloat) : Prop :=
  exists p hv, In p l /\ get p "id" = Some k /\
    get p "Hourly_sub_index" = Some hv /\ hv <> "NA" /\ float hv = Return f.

Definition floats_from (l : list element) (pollutants : gmap string pvalue) : Prop :=
  forall k f, pollutants !! k = Some (PFloat f) -> float_origin l k f.

(** An entry stored under [sid] stems from a [Station] element of
    [stations] with the non-empty id [sid] and a non-empty [lastupdate]
    that [strptime] reads, and its floats stem from that element's
    [Pollutant_Index] children. *)
Definition entry_origin (stations : list element) (sid : string)
    (entry : station_data) : Prop :=
  exists station lu, In station stations /\
    get station "id" = Some sid /\ sid <> "" /\
    get station "lastupdate" = Some lu /\ lu <> "" /\
    strptime lu "%d-%m-%Y %H:%M:%S" = Return (timestamp entry) /\
    floats_from (findall "Pollutant_Index" station) (pollutants entry).

End Parsing.

(** How the [AQI] key of an entry relates to the station element it
    stems from: the raw [Value] attribute of the first
    [Air_Quality_Index] child if there is one, no raw attribute
    otherwise; and no other key holds a raw attribute. *)
Definition aqi_shape (station : element) (entry : station_data) : Prop :=
  match find "Air_Quality_Index" station with
  | Some aqi_elem =>
      pollutants entry !! "AQI" = Some (PAttr (get aqi_elem "Value"))
  | None => forall v, pollutants entry !! "AQI" <> Some (PAttr v)
  end /\
  forall k v, k <> "AQI" -> pollutants entry !! k <> Some (PAttr v).

(** ** [update_station_csv] *)

(** A row of a station file: its [Local Time] as an instant (seconds,
    UTC) and its other cells; an absent cell is an empty one. *)
Record csv_row : Type := {
  Local_Time : Z;
  cells : gmap string pvalue
}.

(** What [pd.read_csv] followed by the conversion of [Local Time] makes
    of a file whose timestamps carry an offset: a table of instants, or an
    exception.  Files without offsets are in [csv_file] below. *)
Inductive file : Type :=
  | Unreadable
  | Table (rows : list csv_row).

(** [pd.to_datetime(timestamp.strftime(...) + "+05:30")]: the instant of
    a naive datetime read at offset +05:30. *)
Definition to_datetime_ist (t : datetime) : Z := (t - 19800)%Z.

(** [df.sort_values("Local Time")].  On rows with pairwise distinct
    timestamps every sorting algorithm gives this result. *)
Definition by_local_time : relation csv_row :=
  fun r1 r2 => (Local_Time r1 <= Local_Time r2)%Z.

#[global] Instance by_local_time_dec : RelDecision by_local_time :=
  fun r1 r2 => decide (Local_Time r1 <= Local_Time r2)%Z.

Definition sort_values (df : list csv_row) : list csv_row :=
  merge_sort by_local_time df.

(** The loop over [POLLUTANT_MAP.items()] that fills [new_row]. *)
Definition map_pollutants (rss_pollutants : gmap string pvalue)
    : gmap string pvalue :=
  fold_left
    (fun new_row '(rss_key, csv_col) =>
       match rss_pollutants !! rss_key with
       | Some v => <[csv_col := v]> new_row
       | None => new_row
       end)
    POLLUTANT_MAP ∅.

Definition csv_path_of (station : station_row) : string :=
  String.append STATION_DATA_DIR (String.append "/" (filename station)).

(** [update_station_csv], on a file system mapping paths to files with
    timezone-aware timestamps; it returns the verdict and the file system
    it leaves.  [update_station_csv_tz] below covers files of either
    kind, on which the call can raise. *)
Definition update_station_csv (station : station_row) (rss_data : station_data)
    (fs : gmap string file) : bool * gmap string file :=
  let csv_path := csv_path_of station in
  match fs !! csv_path with
  | None => (false, fs)
  | Some Unreadable => (false, fs)
  | Some (Table df) =>
      let timestamp := to_datetime_ist (timestamp rss_data) in
      if decide (0 < length (filter (fun r => Local_Time r = timestamp) df))%nat
      then (false, fs)
      else
        let new_cells := map_pollutants (pollutants rss_data) in
        if bool_decide (new_cells !! "PM25" = None)
           && bool_decide (new_cells !! "PM10" = None)
        then (false, fs)
        else
          let df := (df ++ [ {| Local_Time := timestamp; cells := new_cells |} ])%list in
          let df := sort_values df in
          (true, <[csv_path := Table df]> fs)
  end.

(** ** [main] of the ingester *)

(** What a run sees of the outside: the metadata file ([None] when the
    path does not exist, otherwise what [pd.read_csv] gives), the result
    of [fetch_rss_feed] ([None] for a failed request), and the station
    files. *)
Record world : Type := {
  stations_csv : option (outcome (list station_row));
  rss_feed : option string;
  station_files : gmap string file
}.

(** The three numbers of the summary. *)
Record summary : Type := {
  rss_count : nat;
  matched : nat;
  updated : nat
}.

Section Main.

Variable fromstring : string -> outcome element.
Variable strptime : string -> string -> outcome datetime.
Variable float : string -> outcome pyfloat.
Variable ratio : string -> string -> Q.

(** [rss_stations.items()]: the entries of the dictionary in its
    iteration order, which a [gmap] does not record. *)
Variable items : gmap string station_data -> list (string * station_data).

(** Body of the loop over [rss_stations.items()], on the counters
    [matched] and [updated] and station files with timezone-aware
    timestamps.  [update_all] below is the loop on files of either
    kind. *)
Definition match_and_update (our_stations : list station_row)
    (state : nat * nat * gmap string file) (item : string * station_data)
    : nat * nat * gmap string file :=
  let '(matched, updated, fs) := state in
  let '(rss_name, rss_data) := item in
  match find_matching_station ratio rss_name our_stations with
  | Some match_row =>
      let matched := S matched in
      let '(ok, fs) := update_station_csv match_row rss_data fs in
      (matched, if ok then S updated else updated, fs)
  | None => state
  end.

(** [main] on station files with timezone-aware timestamps: the summary
    it prints, if it gets that far, and the station files it leaves.
    [main_tz] below is [main] on files of either kind. *)
Definition main (w : world) : outcome (option summary * gmap string file) :=
  match stations_csv w with
  | None => Return (None, station_files w)
  | Some read_csv =>
      our_stations ← read_csv;
      match rss_feed w with
      | None => Return (None, station_files w)
      | Some xml_content =>
          if String.eqb xml_content "" then Return (None, station_files w)
          else
            rss_stations ← parse_rss_feed fromstring strptime float xml_content;
            let '(matched, updated, fs) :=
              fold_left (match_and_update our_stations) (items rss_stations)
                (0%nat, 0%nat, station_files w) in
            Return (Some {| rss_count := size rss_stations;
                            matched := matched; updated := updated |}, fs)
      end
  end.

End Main.

(** Every readable station file has pairwise distinct timestamps. *)
Definition distinct_timestamps (fs : gmap string file) : Prop :=
  forall path df, fs !! path = Some (Table df) -> NoDup (Local_Time <$> df).

(** A file keeps its rows: a table stays a table with at least the same
    rows and at most [n] more; anything else stays as it is. *)
Definition kept (n : nat) (before after : option file) : Prop :=
  match before with
  | Some (Table df) =>
      exists df', after = Some (Table df') /\
        (forall r, In r df -> In r df') /\
        (length df' <= length df + n)%nat
  | _ => after = before
  end.

(** ** Station files with either kind of [Local Time]

    [pd.to_datetime] makes a timezone-aware column of a file whose
    [Local Time] values carry an offset, and a timezone-naive one of a file
    whose values carry none.  [file] and [update_station_csv] above are
    the case of aware files.  On a naive file the comparison of line 158
    with the aware timestamp holds of no row, and once a new row is
    appended the conversion of line 178, which is outside the [try],
    raises [ValueError] on the mixed column. *)








(** ** Sample data

    A feed of three stations, a metadata table of two and a station
    file, to run the functions on.  [sample_fromstring],
    [sample_strptime] and [sample_float] stand in for the three library
    calls on this feed; [prefix_ratio] stands in for [difflib]'s ratio. *)

Definition sample_xml : string :=
  "<AqIndex><Country id='India'><State id='Delhi'><City id='Delhi'>" +:+
  "<Station id='Anand Vihar, Delhi - DPCC' lastupdate='07-01-2026 22:00:00'" +:+
  " latitude='28.6468' longitude='77.3160'>" +:+
  "<Pollutant_Index id='PM2.5' Hourly_sub_index='312'/>" +:+
  "<Pollutant_Index id='NO2' Hourly_sub_index='NA'/>" +:+
  "<Air_Quality_Index Value='312'/></Station>" +:+
  "<Station id='ITO, Delhi - CPCB'/>" +:+
  "<Station id='Lodhi Road, Delhi - IMD' lastupdate='07-01-2026 22:00:00'>" +:+
  "<Pollutant_Index id='NO2' Hourly_sub_index='41'/></Station>" +:+
  "</City></State></Country></AqIndex>".

Definition leaf (t : string) (a : list (string * string)) : element :=
  Element t (list_to_map a) [].

Definition sample_root : element :=
  Element "AqIndex" ∅
    [Element "Country" {["id" := "India"]}
      [Element "State" {["id" := "Delhi"]}
        [Element "City" {["id" := "Delhi"]}
          [ Element "Station"
              (list_to_map [("id", "Anand Vihar, Delhi - DPCC");
                            ("lastupdate", "07-01-2026 22:00:00");
                            ("latitude", "28.6468"); ("longitude", "77.3160")])
              [ leaf "Pollutant_Index" [("id", "PM2.5"); ("Hourly_sub_index", "312")];
                leaf "Pollutant_Index" [("id", "NO2"); ("Hourly_sub_index", "NA")];
                leaf "Air_Quality_Index" [("Value", "312")] ];
            leaf "Station" [("id", "ITO, Delhi - CPCB")];
            Element "Station"
              (list_to_map [("id", "Lodhi Road, Delhi - IMD");
                            ("lastupdate", "07-01-2026 22:00:00")])
              [ leaf "Pollutant_Index" [("id", "NO2"); ("Hourly_sub_index", "41")] ]
          ]]]].

Definition sample_fromstring (s : string) : outcome element :=
  if String.eqb s sample_xml then Return sample_root else Raise ParseError.

(** 2026-01-07 22:00:00 is second 1767823200 of the epoch. *)
Definition sample_strptime (s fmt : string) : outcome datetime :=
  if String.eqb s "07-01-2026 22:00:00" && String.eqb fmt "%d-%m-%Y %H:%M:%S"
  then Return 1767823200%Z else Raise ValueError.

(** [float] on unsigned integer literals. *)
Fixpoint digits_value (acc : Z) (s : string) : option Z :=
  match s with
  | EmptyString => Some acc
  | String c s' =>
      let n := nat_of_ascii c in
      if (48 <=? n)%nat && (n <=? 57)%nat
      then digits_value (10 * acc + Z.of_nat (n - 48))%Z s'
      else None
  end.

Definition sample_float (s : string) : outcome pyfloat :=
  match s with
  | EmptyString => Raise ValueError
  | _ => match digits_value 0 s with
         | Some n => Return (Finite (inject_Z n))
         | None => Raise ValueError
         end
  end.

Fixpoint common_prefix (a b : string) : nat :=
  match a, b with
  | String c a', String d b' =>
      if Ascii.eqb c d then S (common_prefix a' b') else O
  | _, _ => O
  end.

Definition prefix_ratio (a b : string) : Q :=
  match (String.length a + String.length b)%nat with
  | O => 1
  | S n => (2 * Z.of_nat (common_prefix a b)) # (Pos.of_succ_nat n)
  end.

Definition sample_stations : list station_row :=
  [ {| station_id := 108; station_name := "ITO, Delhi"; lat := 28.6286;
       lon := 77.241; filename := "ito.csv" |};
    {| station_id := 235; station_name := "Anand Vihar, Delhi"; lat := 28.6468;
       lon := 77.316; filename := "anand_vihar.csv" |} ].

Definition anand_vihar : station_row :=
  {| station_id := 235; station_name := "Anand Vihar, Delhi"; lat := 28.6468;
     lon := 77.316; filename := "anand_vihar.csv" |}.

(** The two entries [parse_rss_feed] makes of the sample feed. *)
Definition anand_vihar_entry : station_data :=
  {| timestamp := 1767823200%Z;
     feed_lat := Some "28.6468"; feed_lon := Some "77.3160";
     pollutants := <["AQI" := PAttr (Some "312")]>
                     {["PM2.5" := PFloat (Finite 312)]} |}.

Definition lodhi_road_entry : station_data :=
  {| timestamp := 1767823200%Z;
     feed_lat := None; feed_lon := None;
     pollutants := {["NO2" := PFloat (Finite 41)]} |}.

(** A station file with the two hours before the feed's timestamp. *)
Definition sample_rows : list csv_row :=
  [ {| Local_Time := 1767796200; cells := {["PM25" := PFloat (Finite 290)]} |};
    {| Local_Time := 1767799800; cells := {["PM25" := PFloat (Finite 301)]} |} ].

Definition sample_fs : gmap string file :=
  {[ "data/raw/station_data/anand_vihar.csv" := Table sample_rows ]}.

Definition sample_world : world :=
  {| stations_csv := Some (Return sample_stations);
     rss_feed := Some sample_xml;
     station_files := sample_fs |}.

(** What a run on [sample_world] prints and leaves: of the two entries
    of the feed one matches a station, and its row is appended. *)
Definition sample_report : summary :=
  {| rss_count := 2; matched := 1; updated := 1 |}.

Definition sample_fs_after : gmap string file :=
  {[ "data/raw/station_data/anand_vihar.csv" :=
       Table (sample_rows ++
              [ {| Local_Time := 1767803400;
                   cells := {["PM25" := PFloat (Finite 312)]} |} ])%list ]}.

(** The three [Station] elements of the sample feed, in document order,
    and the mapping [parse_rss_feed] makes of it. *)
Definition sample_station_1 : element :=
  Element "Station"
    (list_to_map [("id", "Anand Vihar, Delhi - DPCC");
                  ("lastupdate", "07-01-2026 22:00:00");
                  ("latitude", "28.6468"); ("longitude", "77.3160")])
    [ leaf "Pollutant_Index" [("id", "PM2.5"); ("Hourly_sub_index", "312")];
      leaf "Pollutant_Index" [("id", "NO2"); ("Hourly_sub_index", "NA")];
      leaf "Air_Quality_Index" [("Value", "312")] ].

Definition sample_station_2 : element :=
  leaf "Station" [("id", "ITO, Delhi - CPCB")].

Definition sample_station_3 : element :=
  Element "Station"
    (list_to_map [("id", "Lodhi Road, Delhi - IMD");
                  ("lastupdate", "07-01-2026 22:00:00")])
    [ leaf "Pollutant_Index" [("id", "NO2"); ("Hourly_sub_index", "41")] ].

Definition sample_stations_data : gmap string station_data :=
  <["Anand Vihar, Delhi - DPCC" := anand_vihar_entry]>
    {["Lodhi Road, Delhi - IMD" := lodhi_road_entry]}.

(** Two [Station] elements with one id: the later one overwrites the
    earlier one. *)
Definition sample_station_old : element :=
  Element "Station"
    (list_to_map [("id", "Anand Vihar, Delhi - DPCC");
                  ("lastupdate", "07-01-2026 22:00:00");
                  ("latitude", "0.0"); ("longitude", "0.0")])
    [ leaf "Pollutant_Index" [("id", "PM2.5"); ("Hourly_sub_index", "100")] ].

Definition duplicate_xml : string :=
  "<AqIndex>" +:+
  "<Station id='Anand Vihar, Delhi - DPCC' lastupdate='07-01-2026 22:00:00'" +:+
  " latitude='0.0' longitude='0.0'>" +:+
  "<Pollutant_Index id='PM2.5' Hourly_sub_index='100'/></Station>" +:+
  "<Station id='Anand Vihar, Delhi - DPCC' lastupdate='07-01-2026 22:00:00'" +:+
  " latitude='28.6468' longitude='77.3160'>" +:+
  "<Pollutant_Index id='PM2.5' Hourly_sub_index='312'/>" +:+
  "<Pollutant_Index id='NO2' Hourly_sub_index='NA'/>" +:+
  "<Air_Quality_Index Value='312'/></Station>" +:+
  "<Station id='Lodhi Road, Delhi - IMD' lastupdate='07-01-2026 22:00:00'>" +:+
  "<Pollutant_Index id='NO2' Hourly_sub_index='41'/></Station>" +:+
  "</AqIndex>".

Definition duplicate_root : element :=
  Element "AqIndex" ∅ [sample_station_old; sample_station_1; sample_station_3].

Definition duplicate_fromstring (s : string) : outcome element :=
  if String.eqb s duplicate_xml then Return duplicate_root else Raise ParseError.

(** A string with a lone surrogate (U+D800, here as the three bytes
    237 160 128), and a stand-in for [ET.fromstring] that does on such
    strings what the library does: encoding the text raises
    [UnicodeEncodeError] before any parsing. *)
Definition surrogate_xml : string :=
  "<a>" +:+
  String (ascii_of_nat 237) (String (ascii_of_nat 160) (String (ascii_of_nat 128)
    "</a>")).

Fixpoint has_surrogate (s : string) : bool :=
  match s with
  | String c ((String d _) as s') =>
      ((nat_of_ascii c =? 237)%nat
       && (160 <=? nat_of_ascii d)%nat && (nat_of_ascii d <=? 191)%nat)
      || has_surrogate s'
  | _ => false
  end.

Definition strict_fromstring (s : string) : outcome element :=
  if has_surrogate s then Raise UnicodeEncodeError else sample_fromstring s.












End Fetch.

(** * The meteorology backfill job ([backfill_wind.py]) *)

Module Backfill.

(** A row of [wind_stations.csv], with the columns [fetch_station_wind]
    writes. *)
Record wind_row : Type := {
  timestamp : Z;
  station_id : Z;
  station_name : string;
  lat : Q;
  lon : Q;
  wind_temp : option Q;
  wind_speed_10m : option Q;
  wind_dir_10m : option Q;
  wind_speed_80m : option Q;
  wind_dir_80m : option Q;
  blh : option Q
}.

(** The deduplication subset [['timestamp', 'station_id']]. *)
Definition key (r : wind_row) : Z * Z := (timestamp r, station_id r).

(** [df.drop_duplicates(subset=['timestamp', 'station_id'], keep='last')]:
    a row is dropped when a later row has its key. *)
Fixpoint drop_duplicates_last (df : list wind_row) : list wind_row :=
  match df with
  | [] => []
  | r :: rest =>
      if bool_decide (key r ∈ key <$> rest)
      then drop_duplicates_last rest
      else r :: drop_duplicates_last rest
  end.

(** [df.sort_values(['station_id', 'timestamp'])] *)
Definition by_station_time : relation wind_row :=
  fun r1 r2 =>
    (station_id r1 < station_id r2)%Z \/
    (station_id r1 = station_id r2 /\ (timestamp r1 <= timestamp r2)%Z).

#[global] Instance by_station_time_dec : RelDecision by_station_time.
Proof. intros r1 r2. unfold by_station_time. apply _. Defined.

Definition sort_values (df : list wind_row) : list wind_row :=
  merge_sort by_station_time df.

(** Lines 195 to 198 of [main]: append and deduplicate. *)
Definition combine (existing_df new_df : list wind_row) : list wind_row :=
  let combined_df := (existing_df ++ new_df)%list in
  let combined_df := drop_duplicates_last combined_df in
  sort_values combined_df.

(** What the job sees of the outside: the two CSV files ([None] when the
    path does not exist, otherwise what reading it and converting its
    [timestamp] column gives; a file without that column reads as an
    exception), the clock, and the answer of the weather API to
    [fetch_station_wind] ([None] for a failed request or a reply without
    ["hourly"]). *)
Record world : Type := {
  stations_csv : option (outcome (list Fetch.station_row));
  wind_csv : option (outcome (list wind_row));
  now : Z;
  fetch_station_wind :
    Fetch.station_row -> Z -> Z -> bool -> option (list wind_row)
}.

Definition set_wind_csv (w : world) (df : list wind_row) : world :=
  {| stations_csv := stations_csv w;
     wind_csv := Some (Return df);
     now := now w;
     fetch_station_wind := fetch_station_wind w |}.

(** [df.groupby('station_id')['timestamp'].max().to_dict()] *)
Definition station_max (df : list wind_row) : gmap Z Z :=
  fold_left
    (fun m r =>
       match m !! station_id r with
       | Some t => <[station_id r := Z.max t (timestamp r)]> m
       | None => <[station_id r := timestamp r]> m
       end)
    df ∅.

(** [df['timestamp'].max()] of a non-empty frame. *)
Definition global_max (df : list wind_row) : option Z :=
  match df with
  | [] => None
  | r :: rest => Some (fold_left (fun t r' => Z.max t (timestamp r')) rest (timestamp r))
  end.

(** [get_station_timestamps]: every exception is caught. *)
Definition get_station_timestamps (w : world) : option (gmap Z Z) * option Z :=
  match wind_csv w with
  | None => (None, None)
  | Some (Raise _) => (None, None)
  | Some (Return df) =>
      if bool_decide (length df = 0%nat) then (None, None)
      else (Some (station_max df), global_max df)
  end.

(** The names bound at module level when [main] runs: the imports, the
    configuration constants and the three function definitions. *)
Definition module_globals : list string :=
  [ "pd"; "requests"; "time"; "datetime"; "timedelta"; "os";
    "ARCHIVE_API"; "FORECAST_API"; "HOURLY_VARS";
    "SCRIPT_DIR"; "STATIONS_PATH"; "WIND_STATIONS_PATH";
    "get_station_timestamps"; "fetch_station_wind"; "main" ].

(** Evaluating a global name that is not a builtin: [NameError] unless
    the module binds it. *)
Definition load_global (name : string) : outcome unit :=
  if bool_decide (name ∈ module_globals) then Return tt
  else Raise (NameError name).

Section Main.

(** Line 124 calls the global name [get_last_timestamp].  [load_global]
    resolves the name against [module_globals]; [callee] stands for the
    function it would denote and is reached only when the name
    resolves. *)
Variable callee : world -> outcome (option Z).

(** Body of the loop over [stations.iterrows()]. *)
Definition fetch_step (w : world) (last_ts start_date end_date : Z)
    (use_forecast : bool) (all_data : list (list wind_row))
    (row : Fetch.station_row) : outcome (list (list wind_row)) :=
  match fetch_station_wind w row start_date end_date use_forecast with
  | Some df =>
      if bool_decide (0 < length df)%nat then
        let df := filter (fun r => (last_ts < timestamp r)%Z) df in
        if bool_decide (0 < length df)%nat
        then Return (all_data ++ [df])%list
        else Return all_data
      else Return all_data
  | None => Return all_data
  end.

Definition main (w : world) : outcome world :=
  match stations_csv w with
  | None => Return w
  | Some read_csv =>
      stations ← read_csv;
      load_global "get_last_timestamp" ;;
      last_ts ← callee w;
      match last_ts with
      | None => Return w
      | Some last_ts =>
          let start_date := (last_ts + 3600)%Z in
          let end_date := now w in
          let days_gap := ((now w - last_ts) `div` 86400)%Z in
          if bool_decide (days_gap <= 0)%Z then Return w
          else
            let use_forecast := bool_decide (days_gap <= 7)%Z in
            all_data ← for_loop
                          (fetch_step w last_ts start_date end_date use_forecast)
                          stations [];
            match all_data with
            | [] => Return w
            | _ =>
                let new_df := concat all_data in
                existing_df ← default (Raise FileNotFoundError) (wind_csv w);
                Return (set_wind_csv w (combine existing_df new_df))
            end
      end
  end.

End Main.

Section Collect.

(** [fetch_station_wind] (lines 61 to 107) as a call that may raise: it
    catches [RequestException] only, so a reply whose ["hourly"] object
    lacks ["time"] raises [KeyError], and a frame built of columns of
    unequal length [ValueError]. *)
Variable fetch_station_wind_call :
  Fetch.station_row -> Z -> Z -> bool -> outcome (option (list wind_row)).



End Collect.

(** The strict order of the sort keys: by station, then by timestamp. *)
Definition strictly_before : relation wind_row :=
  fun r1 r2 =>
    (station_id r1 < station_id r2)%Z \/
    (station_id r1 = station_id r2 /\ (timestamp r1 < timestamp r2)%Z).

(** ** Sample data: a world in which both files exist and
    [wind_stations.csv] has one row. *)

Definition sample_wind_row (t : Z) (temp : Q) : wind_row :=
  {| timestamp := t; station_id := 235; station_name := "Anand Vihar, Delhi";
     lat := 28.6468; lon := 77.316; wind_temp := Some temp;
     wind_speed_10m := Some 3.5%Q; wind_dir_10m := Some 114%Q;
     wind_speed_80m := Some 5.1%Q; wind_dir_80m := Some 120%Q;
     blh := Some 270%Q |}.

Definition sample_world : world :=
  {| stations_csv := Some (Return Fetch.sample_stations);
     wind_csv := Some (Return [sample_wind_row 1767225600 11]);
     now := 1767823200;
     fetch_station_wind := fun _ _ _ _ => None |}.


(** A candidate for what line 124 means to call: the global maximum of
    [get_station_timestamps]. *)
Definition sample_callee (w : world) : outcome (option Z) :=
  Return (get_station_timestamps w).2.

End Backfill.

(** * Properties of the Aggregator *)

Section EngineFacts.

Import Engine.
Local Open Scope Q_scope.

Lemma Qsum_scale (c : Q) (l : list Q) :
  Qsum (map (fun x => c * x) l) == c * Qsum l.
Proof.
  induction l as [|x l IH]; simpl.
  - ring.
  - rewrite IH. ring.
Qed.

Lemma Qsum_le (A : Type) (f g : A -> Q) (l : list A) :
  Forall (fun a => f a <= g a) l -> Qsum (map f l) <= Qsum (map g l).
Proof.
  induction 1 as [|a l Ha _ IH]; simpl.
  - apply Qle_refl.
  - apply Qplus_le_compat; assumption.
Qed.

Lemma clamp_lower (floor ceiling x : Q) :
  floor <= ceiling -> floor <= clamp floor ceiling x.
Proof.
  intros Hfc. unfold clamp.
  destruct (Qle_bool x floor) eqn:Hx; [apply Qle_refl|].
  destruct (Qle_bool ceiling x) eqn:Hc; [assumption|].
  apply Qnot_lt_le. intros Hlt.
  apply Qlt_le_weak, Qle_bool_iff in Hlt. congruence.
Qed.

Lemma clamp_upper (floor ceiling x : Q) :
  floor <= ceiling -> clamp floor ceiling x <= ceiling.
Proof.
  intros Hfc. unfold clamp.
  destruct (Qle_bool x floor) eqn:Hx; [assumption|].
  destruct (Qle_bool ceiling x) eqn:Hc; [apply Qle_refl|].
  apply Qnot_lt_le. intros Hlt.
  apply Qlt_le_weak, Qle_bool_iff in Hlt. congruence.
Qed.

Lemma Qsum_renormalise (A : Type) (w : A -> Q) (t : Q) (l : list A) :
  ~ t == 0 ->
  Qsum (map (fun a => 100 * w a / t) l) == 100 * Qsum (map w l) / t.
Proof.
  intros Ht. induction l as [|a l IH]; simpl.
  - field. exact Ht.
  - rewrite IH. field. exact Ht.
Qed.

Variable Request : Type.
Variable rule : Source -> Request -> Q.
Variables floor ceiling : Q.

(** Renormalisation: the percentages of any response sum to 100. *)
Lemma aggregate_sum (catalog : list Source) (req : Request)
    (results : list ContributionResult) :
  aggregate Request rule floor ceiling catalog req = inr results ->
  sum_percentage results == 100.
Proof.
  unfold aggregate, sum_percentage.
  set (t := total_weight Request rule floor ceiling catalog req).
  destruct (Qeq_bool t 0) eqn:Ht; [discriminate|].
  intros [= <-]. apply Qeq_bool_neq in Ht.
  rewrite map_map. simpl.
  rewrite (Qsum_renormalise _ (weighted Request rule floor ceiling req) t catalog Ht).
  fold (total_weight Request rule floor ceiling catalog req). fold t.
  field. exact Ht.
Qed.

(** With a positive clamp floor, a valid catalog weighs at least
    [100 * floor] in total. *)
Lemma total_weight_lower (catalog : list Source) (req : Request) :
  0 < floor -> floor <= ceiling -> catalog_valid catalog ->
  100 * floor <= total_weight Request rule floor ceiling catalog req.
Proof.
  intros Hpos Hfc [Hnonneg Hsum]. unfold total_weight.
  assert (Hle : Qsum (map (fun s => floor * prior_percentage s) catalog)
                <= Qsum (map (weighted Request rule floor ceiling req) catalog)).
  { apply Qsum_le. eapply Forall_impl; [exact Hnonneg|].
    intros s Hs. simpl in Hs. unfold weighted, modulation_factor.
    rewrite (Qmult_comm floor).
    pose proof (clamp_lower floor ceiling (rule s req) Hfc) as Hc.
    apply Qmult_le_compat_nonneg; split; auto using Qle_refl, Qlt_le_weak. }
  eapply Qle_trans; [|exact Hle].
  rewrite <- (map_map prior_percentage (fun x => floor * x)), Qsum_scale, Hsum.
  rewrite Qmult_comm. apply Qle_refl.
Qed.

End EngineFacts.

(** C1.  For a valid catalog (non-negative priors summing to 100) and a
    clamp range with a positive floor, every request is scored: the
    Aggregator returns a response, and the [percentage] fields of that
    response sum to 100, hence to 100 within the tolerance 0.01, whatever
    the rules make of readings, meteorology and fire count. *)
Theorem percentages_sum_to_100 (Request : Type)
    (rule : Engine.Source -> Request -> Q) (floor ceiling : Q)
    (catalog : list Engine.Source) (req : Request) :
  (0 < floor)%Q -> (floor <= ceiling)%Q -> Engine.catalog_valid catalog ->
  exists results,
    Engine.aggregate Request rule floor ceiling catalog req = inr results /\
    (Engine.sum_percentage results == 100)%Q /\
    (Qabs (Engine.sum_percentage results - 100) <= 1 # 100)%Q.
Proof.
  intros Hpos Hfc Hvalid.
  pose proof (total_weight_lower Request rule floor ceiling catalog req
                Hpos Hfc Hvalid) as Hlow.
  destruct (Engine.aggregate Request rule floor ceiling catalog req)
    as [err|results] eqn:Hagg.
  - exfalso. unfold Engine.aggregate in Hagg.
    destruct (Qeq_bool _ 0) eqn:Ht; [|discriminate].
    apply Qeq_bool_iff in Ht. rewrite Ht in Hlow. lra.
  - exists results. split; [reflexivity|].
    pose proof (aggregate_sum Request rule floor ceiling catalog req results Hagg)
      as Hsum.
    split; [exact Hsum|].
    rewrite Hsum. vm_compute. discriminate.
Qed.

Lemma percentages_sum_to_100_witness :
  (0 < 1 # 10)%Q /\ (1 # 10 <= 3)%Q /\
  Engine.catalog_valid Engine.example_catalog /\
  exists results,
    Engine.aggregate Suite.test_case Engine.example_rule (1 # 10) 3
      Engine.example_catalog Suite.test_12 = inr results /\
    (Engine.sum_percentage results == 100)%Q /\
    (Qabs (Engine.sum_percentage results - 100) <= 1 # 100)%Q.
Proof.
  assert (H1 : (0 < 1 # 10)%Q) by reflexivity.
  assert (H2 : (1 # 10 <= 3)%Q) by (vm_compute; discriminate).
  assert (H3 : Engine.catalog_valid Engine.example_catalog).
  { split; [repeat constructor; vm_compute; discriminate | reflexivity]. }
  split; [exact H1|]. split; [exact H2|]. split; [exact H3|].
  exact (percentages_sum_to_100 Suite.test_case Engine.example_rule (1 # 10) 3
           Engine.example_catalog Suite.test_12 H1 H2 H3).
Defined.

(** * Properties of the validation suite *)

Section SuiteFacts.

Import Suite.

Lemma check_high_spec (c : gmap string source_data) (src : string) :
  check_high c src = true <-> elevated c src.
Proof.
  unfold check_high, elevated.
  rewrite !orb_true_iff, !String.eqb_eq, Qle_bool_iff. tauto.
Qed.

Lemma check_low_spec (c : gmap string source_data) (src : string) :
  check_low c src = true <-> low c src.
Proof. unfold check_low, low. apply Qle_bool_iff. Qed.

(** A validation loop leaves [passed] true exactly when it was true
    and no check failed. *)
Lemma validate_loop_true (check : string -> bool) (expected : list string)
    (passed : bool) :
  validate_loop check expected passed = true <->
  passed = true /\ Forall (fun e => check e = true) expected.
Proof.
  unfold validate_loop. revert passed.
  induction expected as [|e l IH]; intros passed; simpl.
  - split; [intros ->; split; [reflexivity|constructor] | tauto].
  - rewrite IH. destruct (check e) eqn:He; split.
    + intros [-> Hl]. split; [reflexivity|]. constructor; assumption.
    + intros [-> Hl]. split; [reflexivity|]. inversion Hl; assumption.
    + intros [[=] _].
    + intros [_ Hl]. inversion Hl; congruence.
Qed.

Lemma run_test_true (tc : test_case) (api : option response) :
  run_test tc api = Return true <->
  exists result, api = Some result /\
    let c := default ∅ (contributions result) in
    display c = Return tt /\
    Forall (elevated c) (expected_high tc) /\
    Forall (low c) (expected_low tc).
Proof.
  unfold run_test. destruct api as [result|].
  - set (c := default ∅ (contributions result)).
    destruct (display c) as [[]|e] eqn:Hd; simpl.
    + split.
      * intros [= H]. apply validate_loop_true in H as [H Hlow].
        apply validate_loop_true in H as [_ Hhigh].
        exists result. split; [reflexivity|]. simpl. fold c.
        split; [exact Hd|]. split.
        -- eapply Forall_impl; [exact Hhigh|]. intros s. apply check_high_spec.
        -- eapply Forall_impl; [exact Hlow|]. intros s. apply check_low_spec.
      * intros (r & [= <-] & _ & Hhigh & Hlow). f_equal.
        apply validate_loop_true. split.
        -- apply validate_loop_true. split; [reflexivity|].
           eapply Forall_impl; [exact Hhigh|]. intros s. apply check_high_spec.
        -- eapply Forall_impl; [exact Hlow|]. intros s. apply check_low_spec.
    + split; [discriminate|].
      intros (r & [= <-] & Hd' & _). simpl in Hd'. fold c in Hd'. congruence.
  - split; [discriminate|]. intros (r & [=] & _).
Qed.

End SuiteFacts.

(** C3.  The suite counts a source as elevated exactly when its level is
    High or Medium or its percentage is at least 15, and as low exactly
    when its percentage is at most 12; [run_test] returns [True] only when
    a response arrived, every source of [expected_high] is elevated and
    every source of [expected_low] is low (and then it does). *)
Theorem validation_suite_classification :
  (forall c src, Suite.check_high c src = true <->
     Suite.get_level c src = "High" \/ Suite.get_level c src = "Medium" \/
     (15 <= Suite.get_percentage c src)%Q) /\
  (forall c src, Suite.check_low c src = true <->
     (Suite.get_percentage c src <= 12)%Q) /\
  (forall tc api, Suite.run_test tc api = Return true <->
     exists result, api = Some result /\
       let c := default ∅ (Suite.contributions result) in
       Suite.display c = Return tt /\
       Forall (Suite.elevated c) (Suite.expected_high tc) /\
       Forall (Suite.low c) (Suite.expected_low tc)).
Proof.
  split; [exact check_high_spec|].
  split; [exact check_low_spec|].
  exact run_test_true.
Qed.

Lemma validation_suite_classification_witness :
  Suite.run_test Suite.test_1 (Some Suite.response_high) = Return true /\
  exists result, Some Suite.response_high = Some result /\
    let c := default ∅ (Suite.contributions result) in
    Suite.display c = Return tt /\
    Forall (Suite.elevated c) (Suite.expected_high Suite.test_1) /\
    Forall (Suite.low c) (Suite.expected_low Suite.test_1).
Proof.
  assert (H : Suite.run_test Suite.test_1 (Some Suite.response_high) = Return true)
    by (vm_compute; reflexivity).
  split; [exact H|].
  exact (proj1 (proj2 (proj2 validation_suite_classification)
                  Suite.test_1 (Some Suite.response_high)) H).
Defined.

(** C4, as stated, fails: on the Feb 27 scenario ([blh = 105]) the check
    of the trapping-driven source succeeds, and the test passes, with the
    level field equal to "Medium". *)
Lemma expected_high_accepts_medium :
  let c := default ∅ (Suite.contributions Suite.response_medium) in
  In "secondary_aerosols" (Suite.expected_high Suite.test_1) /\
  Suite.check_high c "secondary_aerosols" = true /\
  Suite.run_test Suite.test_1 (Some Suite.response_medium) = Return true /\
  Suite.get_level c "secondary_aerosols" = "Medium" /\
  Suite.get_level c "secondary_aerosols" <> "High".
Proof.
  simpl. split; [left; reflexivity|].
  split; [vm_compute; reflexivity|].
  split; [vm_compute; reflexivity|].
  split; [vm_compute; reflexivity|].
  vm_compute. discriminate.
Qed.

(** C4, amended.  For every test case that lists a source under
    [expected_high], the test passes only if that source's returned level
    is "High" or "Medium" or its returned percentage is at least 15. *)
Theorem expected_high_requires_elevated (tc : Suite.test_case)
    (result : Suite.response) (src : string) :
  In src (Suite.expected_high tc) ->
  Suite.run_test tc (Some result) = Return true ->
  let c := default ∅ (Suite.contributions result) in
  Suite.get_level c src = "High" \/ Suite.get_level c src = "Medium" \/
  (15 <= Suite.get_percentage c src)%Q.
Proof.
  intros Hin Hrun. apply run_test_true in Hrun.
  destruct Hrun as (r & [= <-] & _ & Hhigh & _).
  rewrite Forall_forall in Hhigh. apply Hhigh.
  apply list_elem_of_In. exact Hin.
Qed.

Lemma expected_high_requires_elevated_witness :
  In "secondary_aerosols" (Suite.expected_high Suite.test_1) /\
  Suite.run_test Suite.test_1 (Some Suite.response_medium) = Return true /\
  let c := default ∅ (Suite.contributions Suite.response_medium) in
  Suite.get_level c "secondary_aerosols" = "High" \/
  Suite.get_level c "secondary_aerosols" = "Medium" \/
  (15 <= Suite.get_percentage c "secondary_aerosols")%Q.
Proof.
  assert (H1 : In "secondary_aerosols" (Suite.expected_high Suite.test_1))
    by (left; reflexivity).
  assert (H2 : Suite.run_test Suite.test_1 (Some Suite.response_medium) = Return true)
    by (vm_compute; reflexivity).
  split; [exact H1|]. split; [exact H2|].
  exact (expected_high_requires_elevated Suite.test_1 Suite.response_medium
           "secondary_aerosols" H1 H2).
Defined.

(** * Properties of the feed ingester *)

Section MatchingFacts.

Import Fetch.
Local Open Scope Q_scope.

Variable ratio : string -> string -> Q.

Lemma Qlt_bool_iff (x y : Q) : Qlt_bool x y = true <-> x < y.
Proof.
  unfold Qlt_bool. rewrite negb_true_iff. split.
  - intros H. apply Qnot_le_lt. intros Hle.
    apply Qle_bool_iff in Hle. congruence.
  - intros H. destruct (Qle_bool y x) eqn:Hle; [|reflexivity].
    apply Qle_bool_iff in Hle. exfalso. exact (Qlt_not_le _ _ H Hle).
Qed.

(** The first row with an equal normalised name ends the loop. *)
Lemma find_loop_exact (target : string) (rows : list station_row)
    (best_match : option station_row) (best_score : Q) :
  (exists row, In row rows /\ normalize_station_name (station_name row) = target) ->
  exists row, find_loop ratio target rows best_match best_score = Some row /\
    In row rows /\ normalize_station_name (station_name row) = target.
Proof.
  revert best_match best_score.
  induction rows as [|r rest IH]; intros bm bs (row & Hin & Hrow).
  - destruct Hin.
  - simpl. destruct (String.eqb target _) eqn:Heq.
    + apply String.eqb_eq in Heq. exists r. auto.
    + assert (Hrest : exists row, In row rest /\
                normalize_station_name (station_name row) = target).
      { destruct Hin as [<-|Hin].
        - apply String.eqb_neq in Heq. congruence.
        - exists row. auto. }
      destruct (Qlt_bool bs _ && Qlt_bool (6 # 10) _).
      * destruct (IH (Some r) (score_of ratio target r) Hrest)
          as (row' & H1 & H2 & H3).
        exists row'. auto.
      * destruct (IH bm bs Hrest) as (row' & H1 & H2 & H3).
        exists row'. auto.
Qed.

(** Without an equal name the loop either keeps its accumulator, no
    row beating both the current best score and the threshold, or
    ends on a row that does and that no row beats. *)
Lemma find_loop_fuzzy (target : string) (rows : list station_row)
    (best_match : option station_row) (best_score : Q) :
  (forall row, In row rows -> normalize_station_name (station_name row) <> target) ->
  (find_loop ratio target rows best_match best_score = best_match /\
   forall row, In row rows ->
     ~ (best_score < score_of ratio target row /\ 6 # 10 < score_of ratio target row))
  \/
  (exists best, find_loop ratio target rows best_match best_score = Some best /\
     In best rows /\ best_score < score_of ratio target best /\
     6 # 10 < score_of ratio target best /\
     forall row, In row rows -> score_of ratio target row <= score_of ratio target best).
Proof.
  revert best_match best_score.
  induction rows as [|r rest IH]; intros bm bs Hne.
  - left. split; [reflexivity|]. intros row [].
  - simpl. assert (Hr : String.eqb target (normalize_station_name (station_name r)) = false).
    { apply String.eqb_neq. intros E. apply (Hne r); [left; reflexivity|congruence]. }
    rewrite Hr.
    assert (Hrest : forall row, In row rest ->
              normalize_station_name (station_name row) <> target).
    { intros row Hin. apply Hne. right. exact Hin. }
    fold (score_of ratio target r).
    destruct (Qlt_bool bs (score_of ratio target r) &&
              Qlt_bool (6 # 10) (score_of ratio target r)) eqn:Hcond.
    + apply andb_true_iff in Hcond as [H1 H2].
      apply Qlt_bool_iff in H1. apply Qlt_bool_iff in H2.
      right. destruct (IH (Some r) (score_of ratio target r) Hrest)
        as [[Hres Hnone] | (b & Hres & Hin & Hb1 & Hb2 & Hmax)].
      * exists r. split; [exact Hres|]. split; [left; reflexivity|].
        split; [exact H1|]. split; [exact H2|].
        intros row [<-|Hin]; [apply Qle_refl|].
        apply Qnot_lt_le. intros Hlt. apply (Hnone row Hin).
        split; [exact Hlt|]. eapply Qlt_trans; eassumption.
      * exists b. split; [exact Hres|]. split; [right; exact Hin|].
        split; [eapply Qlt_trans; eassumption|]. split; [exact Hb2|].
        intros row [<-|Hin']; [apply Qlt_le_weak; exact Hb1|auto].
    + assert (Hnot : ~ (bs < score_of ratio target r /\ 6 # 10 < score_of ratio target r)).
      { intros [H1 H2]. apply Qlt_bool_iff in H1. apply Qlt_bool_iff in H2.
        rewrite H1, H2 in Hcond. discriminate. }
      destruct (IH bm bs Hrest)
        as [[Hres Hnone] | (b & Hres & Hin & Hb1 & Hb2 & Hmax)].
      * left. split; [exact Hres|].
        intros row [<-|Hin]; [exact Hnot|auto].
      * right. exists b. split; [exact Hres|]. split; [right; exact Hin|].
        split; [exact Hb1|]. split; [exact Hb2|].
        intros row [<-|Hin']; [|auto].
        apply Qnot_lt_le. intros Hlt. apply Hnot.
        split; eapply Qlt_trans; eassumption.
Qed.

End MatchingFacts.

(** C5.  [find_matching_station] returns a row whose normalised name
    equals the normalised feed name whenever the table has one; otherwise
    it returns a row of greatest [SequenceMatcher] ratio, provided that
    ratio exceeds 0.6, and no row when no ratio exceeds 0.6. *)
Theorem find_matching_station_spec (ratio : string -> string -> Q)
    (rss_name : string) (our_stations : list Fetch.station_row) :
  let target := Fetch.normalize_station_name rss_name in
  let norm row := Fetch.normalize_station_name (Fetch.station_name row) in
  let result := Fetch.find_matching_station ratio rss_name our_stations in
  ((exists row, In row our_stations /\ norm row = target) ->
   exists row, result = Some row /\ In row our_stations /\ norm row = target)
  /\
  ((forall row, In row our_stations -> norm row <> target) ->
   ((exists row, In row our_stations /\ (6 # 10 < ratio target (norm row))%Q) ->
    exists best, result = Some best /\ In best our_stations /\
      (6 # 10 < ratio target (norm best))%Q /\
      forall row, In row our_stations ->
        (ratio target (norm row) <= ratio target (norm best))%Q)
   /\
   ((forall row, In row our_stations -> (ratio target (norm row) <= 6 # 10)%Q) ->
    result = None)).
Proof.
  intros target norm result. split.
  - intros Hex. apply find_loop_exact. exact Hex.
  - intros Hne.
    destruct (find_loop_fuzzy ratio target our_stations None 0 Hne)
      as [[Hres Hnone] | (b & Hres & Hin & _ & Hb & Hmax)].
    + split.
      * intros (row & Hin & Hrow). exfalso. apply (Hnone row Hin).
        split; [|exact Hrow]. eapply Qlt_trans; [|exact Hrow]. reflexivity.
      * intros _. exact Hres.
    + split.
      * intros _. exists b. auto.
      * intros Hall. exfalso.
        exact (Qlt_not_le _ _ Hb (Hall b Hin)).
Qed.

(** A loop whose body always returns and keeps an invariant returns,
    and the invariant holds of its final state. *)
Lemma for_loop_invariant {S A : Type} (body : S -> A -> outcome S)
    (Inv : S -> Prop) (l : list A) (s : S) :
  Inv s ->
  (forall s a, In a l -> Inv s -> exists s', body s a = Return s' /\ Inv s') ->
  exists s', for_loop body l s = Return s' /\ Inv s'.
Proof.
  revert s. induction l as [|a l IH]; intros s Hs Hbody; simpl.
  - exists s. auto.
  - destruct (Hbody s a (or_introl eq_refl) Hs) as (s1 & Hstep & Hs1).
    rewrite Hstep. simpl. apply IH; [exact Hs1|].
    intros s2 b Hb. apply Hbody. right. exact Hb.
Qed.

Section ParsingFacts.

Import Fetch.

Variable fromstring : string -> outcome element.
Variable strptime : string -> string -> outcome datetime.
Variable float : string -> outcome pyfloat.

(** What [strptime] and [float] may raise on a string argument. *)
Hypothesis strptime_raises :
  forall s fmt e, strptime s fmt = Raise e -> e = ValueError.
Hypothesis float_raises :
  forall s e, float s = Raise e -> e = ValueError.

Lemma truthy_Some (x : option string) :
  truthy x = true -> exists s, x = Some s /\ s <> "".
Proof.
  destruct x as [s|]; simpl; [|discriminate].
  rewrite negb_true_iff. intros H. apply String.eqb_neq in H. eauto.
Qed.

(** One [Pollutant_Index]: the step returns, and either leaves the
    dictionary alone or stores the parsed float. *)
Lemma pollutant_step_cases (pollutants : gmap string pvalue) (p : element) :
  pollutant_step float pollutants p = Return pollutants \/
  exists k hv f, get p "id" = Some k /\ get p "Hourly_sub_index" = Some hv /\
    hv <> "NA" /\ float hv = Return f /\
    pollutant_step float pollutants p = Return (<[k := PFloat f]> pollutants).
Proof.
  unfold pollutant_step.
  destruct (truthy (get p "id")) eqn:Hid; [|left; reflexivity].
  destruct (truthy (get p "Hourly_sub_index")) eqn:Hhv; [|left; reflexivity].
  destruct (truthy_Some _ Hid) as (k & Hk & _).
  destruct (truthy_Some _ Hhv) as (hv & Hh & _).
  rewrite Hk, Hh. simpl.
  destruct (bool_decide (Some hv = Some "NA")) eqn:Hna; [left; reflexivity|].
  apply bool_decide_eq_false in Hna. simpl.
  destruct (float hv) as [f|e] eqn:Hf; simpl.
  - right. exists k, hv, f. repeat split; try assumption. congruence.
  - left. rewrite (float_raises _ _ Hf). reflexivity.
Qed.

(** A value that is "NA" or that [float] rejects is dropped. *)
Lemma pollutant_step_dropped (pollutants : gmap string pvalue) (p : element) :
  (get p "Hourly_sub_index" = Some "NA" \/
   exists hv, get p "Hourly_sub_index" = Some hv /\ float hv = Raise ValueError) ->
  pollutant_step float pollutants p = Return pollutants.
Proof.
  intros H. destruct (pollutant_step_cases pollutants p)
    as [Hsame | (k & hv & f & _ & Hh & Hna & Hf & _)]; [exact Hsame|].
  destruct H as [H | (hv' & H & Hraise)]; rewrite Hh in H.
  - congruence.
  - injection H as <-. congruence.
Qed.

Lemma pollutants_loop (l : list element) :
  exists pollutants,
    for_loop (pollutant_step float) l ∅ = Return pollutants /\
    floats_from float l pollutants.
Proof.
  apply for_loop_invariant.
  - intros k f H. rewrite lookup_empty in H. discriminate.
  - intros s p Hp Hs.
    destruct (pollutant_step_cases s p)
      as [Hsame | (k & hv & f & Hk & Hh & Hna & Hf & Hstep)].
    + exists s. auto.
    + exists (<[k := PFloat f]> s). split; [exact Hstep|].
      intros k' f' Hlook. destruct (decide (k = k')) as [<-|Hne].
      * rewrite lookup_insert_eq in Hlook. injection Hlook as <-.
        exists p, hv. auto.
      * rewrite lookup_insert_ne in Hlook by exact Hne. auto.
Qed.

Lemma floats_from_aqi (l : list element) (pollutants : gmap string pvalue)
    (v : option string) :
  floats_from float l pollutants ->
  floats_from float l (<["AQI" := PAttr v]> pollutants).
Proof.
  intros H k f Hlook. destruct (decide ("AQI" = k)) as [<-|Hne].
  - rewrite lookup_insert_eq in Hlook. discriminate.
  - rewrite lookup_insert_ne in Hlook by exact Hne. auto.
Qed.

(** One [Station] element: the step returns, and either leaves the
    dictionary alone or stores an entry that stems from the element. *)
Lemma station_step_cases (stations_data : gmap string station_data)
    (station : element) :
  station_step strptime float stations_data station = Return stations_data \/
  exists sid entry,
    entry_origin strptime float [station] sid entry /\
    station_step strptime float stations_data station
      = Return (<[sid := entry]> stations_data).
Proof.
  unfold station_step.
  destruct (truthy (get station "id")) eqn:Hid; [|left; reflexivity].
  destruct (truthy (get station "lastupdate")) eqn:Hlu; [|left; reflexivity].
  destruct (truthy_Some _ Hid) as (sid & Hsid & Hsid_ne).
  destruct (truthy_Some _ Hlu) as (lu & Hlast & Hlu_ne).
  rewrite Hsid, Hlast. simpl.
  destruct (strptime lu _) as [t|e] eqn:Ht; simpl.
  - destruct (pollutants_loop (findall "Pollutant_Index" station))
      as (pollutants & Hloop & Hfrom).
    rewrite Hloop. simpl. right. eexists sid, _. split; [|reflexivity].
    exists station, lu. simpl.
    repeat (split; [first [left; reflexivity | assumption]|]).
    destruct (find "Air_Quality_Index" station);
      [apply floats_from_aqi|]; exact Hfrom.
  - left. rewrite (strptime_raises _ _ _ Ht). reflexivity.
Qed.

(** A station without an id, without a [lastupdate], or whose
    [lastupdate] is rejected by [strptime], is omitted. *)
Lemma station_step_omitted (stations_data : gmap string station_data)
    (station : element) :
  (get station "id" = None \/ get station "lastupdate" = None \/
   exists lu, get station "lastupdate" = Some lu /\
     strptime lu "%d-%m-%Y %H:%M:%S" = Raise ValueError) ->
  station_step strptime float stations_data station = Return stations_data.
Proof.
  intros H. destruct (station_step_cases stations_data station)
    as [Hsame | (sid & entry & Horigin & _)]; [exact Hsame|].
  destruct Horigin as (st & lu & [<-|[]] & Hsid & _ & Hlast & _ & Ht & _).
  destruct H as [H | [H | (lu' & H & Hraise)]]; congruence.
Qed.

Lemma entry_origin_mono (l1 l2 : list element) (sid : string)
    (entry : station_data) :
  (forall st, In st l1 -> In st l2) ->
  entry_origin strptime float l1 sid entry ->
  entry_origin strptime float l2 sid entry.
Proof.
  intros Hsub (st & lu & Hin & H). exists st, lu. split; [auto|exact H].
Qed.

Lemma stations_loop (stations : list element) :
  exists stations_data,
    for_loop (station_step strptime float) stations ∅ = Return stations_data /\
    forall sid entry, stations_data !! sid = Some entry ->
      entry_origin strptime float stations sid entry.
Proof.
  apply for_loop_invariant.
  - intros sid entry H. rewrite lookup_empty in H. discriminate.
  - intros m st Hst Hm.
    destruct (station_step_cases m st) as [Hsame | (sid & entry & Ho & Hstep)].
    + exists m. auto.
    + exists (<[sid := entry]> m). split; [exact Hstep|].
      intros sid' entry' Hlook. destruct (decide (sid = sid')) as [<-|Hne].
      * rewrite lookup_insert_eq in Hlook. injection Hlook as <-.
        eapply entry_origin_mono; [|exact Ho].
        intros st' [<-|[]]. exact Hst.
      * rewrite lookup_insert_ne in Hlook by exact Hne. auto.
Qed.

Lemma parse_rss_feed_returns (xml_content : string) :
  (forall e, fromstring xml_content = Raise e -> e = ParseError) ->
  exists stations_data,
    parse_rss_feed fromstring strptime float xml_content = Return stations_data /\
    (forall e, fromstring xml_content = Raise e -> stations_data = ∅) /\
    (forall root, fromstring xml_content = Return root ->
       forall sid entry, stations_data !! sid = Some entry ->
         entry_origin strptime float (iter "Station" root) sid entry).
Proof.
  intros fromstring_raises. unfold parse_rss_feed.
  destruct (fromstring xml_content) as [root|e] eqn:Hroot; simpl.
  - destruct (stations_loop (iter "Station" root)) as (m & Hloop & Hm).
    rewrite Hloop. simpl. exists m. split; [reflexivity|].
    split; [discriminate|]. intros root' [= <-]. exact Hm.
  - rewrite (fromstring_raises _ eq_refl). simpl. exists ∅.
    split; [reflexivity|]. split; [reflexivity|]. discriminate.
Qed.

(** The handler of line 97 catches [ParseError] only: any other
    exception of [ET.fromstring] leaves [parse_rss_feed]. *)
Lemma parse_rss_feed_propagates (xml_content : string) (e : exn) :
  fromstring xml_content = Raise e -> e <> ParseError ->
  parse_rss_feed fromstring strptime float xml_content = Raise e.
Proof.
  intros Hroot Hne. unfold parse_rss_feed. rewrite Hroot. simpl.
  destruct e; try reflexivity. contradiction.
Qed.

End ParsingFacts.

(** C10.  On every input string that [ET.fromstring] parses or rejects
    with [ParseError], [parse_rss_feed] returns a mapping ([strptime] and
    [float] raise nothing but [ValueError] on strings); any other
    exception of [ET.fromstring] leaves the function.  Input that is not
    well-formed gives the empty mapping.  A station without id or
    [lastupdate], or whose [lastupdate] does not parse, is omitted, and a
    pollutant value that is "NA" or not a float is dropped: the loop steps
    leave the dictionaries as they were, and every entry and every float
    of the result stems from a station and a pollutant element that pass
    these tests. *)
Theorem parse_rss_feed_returns_mapping
    (fromstring : string -> outcome Fetch.element)
    (strptime : string -> string -> outcome Fetch.datetime)
    (float : string -> outcome Fetch.pyfloat) :
  (forall s fmt e, strptime s fmt = Raise e -> e = ValueError) ->
  (forall s e, float s = Raise e -> e = ValueError) ->
  forall xml_content,
    ((forall e, fromstring xml_content = Raise e -> e = ParseError) ->
     exists stations_data,
       Fetch.parse_rss_feed fromstring strptime float xml_content
         = Return stations_data /\
       (forall e, fromstring xml_content = Raise e -> stations_data = ∅) /\
       (forall root, fromstring xml_content = Return root ->
          forall sid entry, stations_data !! sid = Some entry ->
            Fetch.entry_origin strptime float
              (Fetch.iter "Station" root) sid entry)) /\
    (forall e, fromstring xml_content = Raise e -> e <> ParseError ->
       Fetch.parse_rss_feed fromstring strptime float xml_content = Raise e) /\
    (forall stations_data station,
       (Fetch.get station "id" = None \/ Fetch.get station "lastupdate" = None \/
        exists lu, Fetch.get station "lastupdate" = Some lu /\
          strptime lu "%d-%m-%Y %H:%M:%S" = Raise ValueError) ->
       Fetch.station_step strptime float stations_data station
         = Return stations_data) /\
    (forall pollutants p,
       (Fetch.get p "Hourly_sub_index" = Some "NA" \/
        exists hv, Fetch.get p "Hourly_sub_index" = Some hv /\
          float hv = Raise ValueError) ->
       Fetch.pollutant_step float pollutants p = Return pollutants).
Proof.
  intros Hstrp Hfloat xml_content. split; [|split; [|split]].
  - apply parse_rss_feed_returns; assumption.
  - apply parse_rss_feed_propagates.
  - intros m st. apply station_step_omitted; assumption.
  - intros ps p. apply pollutant_step_dropped; assumption.
Qed.

Section UpdateFacts.

Import Fetch.

(** [len(df[df["Local Time"] == t]) > 0] says that [t] is the
    timestamp of some row. *)
Lemma timestamp_exists_iff (t : Z) (df : list csv_row) :
  (0 < length (filter (fun r => Local_Time r = t) df))%nat <->
  t ∈ Local_Time <$> df.
Proof.
  rewrite list_elem_of_fmap. split.
  - intros Hlen.
    destruct (filter (fun r => Local_Time r = t) df) as [|r rs] eqn:Hf;
      [simpl in Hlen; lia|].
    assert (Hr : r ∈ filter (fun r => Local_Time r = t) df)
      by (rewrite Hf; left).
    apply list_elem_of_filter in Hr as [Ht Hin]. eauto.
  - intros (r & -> & Hin).
    assert (Hr : r ∈ filter (fun r' => Local_Time r' = Local_Time r) df)
      by (apply list_elem_of_filter; auto).
    destruct (filter _ df); [inversion Hr | simpl; lia].
Qed.

(** The cells of the new row under [PM25] and [PM10] are the feed's
    values under [PM2.5] and [PM10]. *)
Lemma map_pollutants_PM (rss_pollutants : gmap string pvalue) :
  map_pollutants rss_pollutants !! "PM25" = rss_pollutants !! "PM2.5" /\
  map_pollutants rss_pollutants !! "PM10" = rss_pollutants !! "PM10".
Proof.
  unfold map_pollutants, POLLUTANT_MAP. simpl.
  destruct (rss_pollutants !! "PM2.5"), (rss_pollutants !! "PM10"),
    (rss_pollutants !! "NO2"), (rss_pollutants !! "SO2"),
    (rss_pollutants !! "CO"), (rss_pollutants !! "OZONE"),
    (rss_pollutants !! "NH3");
    split; simplify_map_eq; reflexivity.
Qed.

(** The outcomes of a call on a readable station file: nothing is
    written and the verdict is [False], or the verdict is [True] and the
    file holds the sorted old rows and one new row, which has a fresh
    timestamp and a PM cell. *)
Lemma update_station_csv_cases (station : station_row) (rss_data : station_data)
    (fs : gmap string file) (df : list csv_row) :
  fs !! csv_path_of station = Some (Table df) ->
  let t := to_datetime_ist (timestamp rss_data) in
  let new_row := {| Local_Time := t;
                    cells := map_pollutants (pollutants rss_data) |} in
  (update_station_csv station rss_data fs = (false, fs) /\
   (t ∈ Local_Time <$> df \/
    (pollutants rss_data !! "PM2.5" = None /\
     pollutants rss_data !! "PM10" = None)))
  \/
  (update_station_csv station rss_data fs
     = (true, <[csv_path_of station := Table (sort_values (df ++ [new_row]))]> fs) /\
   (t ∉ Local_Time <$> df) /\
   (is_Some (pollutants rss_data !! "PM2.5") \/
    is_Some (pollutants rss_data !! "PM10"))).
Proof.
  intros Hfile t new_row. unfold update_station_csv. rewrite Hfile.
  fold t. destruct (decide (0 < length _)%nat) as [Hex|Hnew].
  - left. split; [reflexivity|]. left. apply timestamp_exists_iff. exact Hex.
  - rewrite timestamp_exists_iff in Hnew.
    destruct (map_pollutants_PM (pollutants rss_data)) as [H25 H10].
    rewrite H25, H10.
    destruct (pollutants rss_data !! "PM2.5") as [v|] eqn:E25.
    + right. simpl. split; [reflexivity|]. split; [exact Hnew|]. left. eauto.
    + destruct (pollutants rss_data !! "PM10") as [v|] eqn:E10.
      * right. simpl. split; [reflexivity|]. split; [exact Hnew|]. right. eauto.
      * left. simpl. split; [reflexivity|]. right. auto.
Qed.




End UpdateFacts.


(** C9.  [update_station_csv] returns [True] only when the feed entry
    has a [PM2.5] or a [PM10] value, which are the [PM25] and [PM10] cells
    of the new row; on an entry with neither it returns [False] and
    leaves the file system as it was. *)
Theorem update_station_csv_needs_pm (station : Fetch.station_row)
    (rss_data : Fetch.station_data) (fs : gmap string Fetch.file) :
  let new_cells := Fetch.map_pollutants (Fetch.pollutants rss_data) in
  ((Fetch.update_station_csv station rss_data fs).1 = true ->
   is_Some (new_cells !! "PM25") \/ is_Some (new_cells !! "PM10")) /\
  (new_cells !! "PM25" = None -> new_cells !! "PM10" = None ->
   Fetch.update_station_csv station rss_data fs = (false, fs)).
Proof.
  intros new_cells.
  destruct (map_pollutants_PM (Fetch.pollutants rss_data)) as [H25 H10].
  fold new_cells in H25, H10. rewrite H25, H10.
  destruct (fs !! Fetch.csv_path_of station) as [[|df]|] eqn:Hfile.
  - unfold Fetch.update_station_csv. rewrite Hfile. simpl.
    split; [discriminate|reflexivity].
  - destruct (update_station_csv_cases station rss_data fs df Hfile)
      as [[-> _] | (-> & _ & Hpm)]; simpl.
    + split; [discriminate|reflexivity].
    + split; [intros _; exact Hpm|].
      intros E25 E10. rewrite E25, E10 in Hpm.
      destruct Hpm as [[? [=]]|[? [=]]].
  - unfold Fetch.update_station_csv. rewrite Hfile. simpl.
    split; [discriminate|reflexivity].
Qed.

(** * Properties of the backfill job *)

Section BackfillFacts.

Import Backfill.

Lemma drop_duplicates_last_subset (df : list wind_row) (r : wind_row) :
  r ∈ drop_duplicates_last df -> r ∈ df.
Proof.
  induction df as [|a df IH]; simpl; [auto|].
  case_bool_decide as Hd.
  - intros Hr. right. auto.
  - intros [->|Hr]%elem_of_cons; [left|right; auto].
Qed.

(** Every key of the frame survives deduplication. *)
Lemma drop_duplicates_last_keys (df : list wind_row) (k : Z * Z) :
  k ∈ key <$> df -> k ∈ key <$> drop_duplicates_last df.
Proof.
  induction df as [|a df IH]; simpl; [auto|].
  intros [->|Hk]%elem_of_cons.
  - case_bool_decide as Hd; [auto|]. simpl. left.
  - case_bool_decide as Hd; [auto|]. simpl. right. auto.
Qed.

Lemma drop_duplicates_last_NoDup (df : list wind_row) :
  NoDup (key <$> drop_duplicates_last df).
Proof.
  induction df as [|a df IH]; simpl; [constructor|].
  case_bool_decide as Ha; [exact IH|].
  simpl. apply NoDup_cons. split; [|exact IH].
  intros Hin. apply Ha.
  apply list_elem_of_fmap in Hin as (r & Hk & Hr).
  apply list_elem_of_fmap. exists r.
  split; [exact Hk|]. apply drop_duplicates_last_subset. exact Hr.
Qed.

(** With [keep='last'], the row kept for a key of the appended frame
    is a row of the appended frame. *)
Lemma drop_duplicates_last_app (df1 df2 : list wind_row) (r : wind_row) :
  r ∈ drop_duplicates_last (df1 ++ df2) ->
  key r ∈ key <$> df2 ->
  r ∈ drop_duplicates_last df2.
Proof.
  intros Hr Hk. induction df1 as [|a df1 IH]; simpl in Hr; [exact Hr|].
  case_bool_decide as Ha; [auto|].
  apply elem_of_cons in Hr as [->|Hr]; [|auto].
  exfalso. apply Ha. rewrite fmap_app. apply elem_of_app. right. exact Hk.
Qed.

Lemma combine_Permutation (existing_df new_df : list wind_row) :
  combine existing_df new_df ≡ₚ drop_duplicates_last (existing_df ++ new_df).
Proof. unfold combine, sort_values. apply merge_sort_Permutation. Qed.

End BackfillFacts.

(** C8.  The table saved by the backfill job has at most one row per
    (timestamp, station_id) pair, holds only rows of the two frames and a
    row for each of their keys, and whenever an existing row and a newly
    fetched row share a key, the row saved under that key is a newly
    fetched one. *)
Theorem combine_dedup_keeps_new (existing_df new_df : list Backfill.wind_row) :
  let saved := Backfill.combine existing_df new_df in
  NoDup (Backfill.key <$> saved) /\
  (forall r, In r saved -> In r existing_df \/ In r new_df) /\
  (forall r, In r existing_df \/ In r new_df ->
     exists r', In r' saved /\ Backfill.key r' = Backfill.key r) /\
  (forall e n r, In e existing_df -> In n new_df ->
     Backfill.key e = Backfill.key n ->
     In r saved -> Backfill.key r = Backfill.key e -> In r new_df).
Proof.
  intros saved.
  pose proof (combine_Permutation existing_df new_df) as Hperm.
  fold saved in Hperm. split; [|split; [|split]].
  - rewrite Hperm. apply drop_duplicates_last_NoDup.
  - intros r Hr. apply list_elem_of_In in Hr. rewrite Hperm in Hr.
    apply drop_duplicates_last_subset, elem_of_app in Hr.
    rewrite <- !list_elem_of_In. exact Hr.
  - intros r Hr. rewrite <- !list_elem_of_In, <- elem_of_app in Hr.
    assert (Hk : Backfill.key r ∈ Backfill.key <$> saved).
    { rewrite Hperm. apply drop_duplicates_last_keys.
      apply list_elem_of_fmap. eauto. }
    apply list_elem_of_fmap in Hk as (r' & Hk & Hr').
    exists r'. rewrite <- list_elem_of_In. auto.
  - intros e n r He Hn Hen Hr Hre.
    apply list_elem_of_In in Hr. rewrite Hperm in Hr.
    apply list_elem_of_In, drop_duplicates_last_subset.
    apply (drop_duplicates_last_app existing_df new_df r Hr).
    apply list_elem_of_fmap. exists n.
    split; [congruence|]. apply list_elem_of_In. exact Hn.
Qed.

(** C6 fails on the code.  Whenever the stations metadata file exists
    and is readable, [main] raises [NameError]: line 124 calls
    [get_last_timestamp], a name the module does not bind (it defines
    [get_station_timestamps]).  The last timestamp is never determined
    and the fetch phase is never reached, whatever [wind_stations.csv]
    holds. *)
Theorem main_raises_NameError
    (callee : Backfill.world -> outcome (option Z)) (w : Backfill.world)
    (stations : list Fetch.station_row) :
  Backfill.stations_csv w = Some (Return stations) ->
  Backfill.main callee w = Raise (NameError "get_last_timestamp").
Proof.
  intros Hst. unfold Backfill.main. rewrite Hst. reflexivity.
Qed.

(** * The functions on the sample data *)

Example normalize_station_name_dpcc :
  Fetch.normalize_station_name "  Anand Vihar, Delhi - DPCC " = "anand vihar delhi".
Proof. vm_compute. reflexivity. Qed.

Example normalize_station_name_spaces :
  Fetch.normalize_station_name "ITO,  Delhi - CPCB" = "ito delhi".
Proof. vm_compute. reflexivity. Qed.

(** The station without [lastupdate] is omitted, and the "NA" value of
    the first station is dropped. *)
Example parse_rss_feed_sample :
  Fetch.parse_rss_feed Fetch.sample_fromstring Fetch.sample_strptime
    Fetch.sample_float Fetch.sample_xml
  = Return (<["Anand Vihar, Delhi - DPCC" := Fetch.anand_vihar_entry]>
            {["Lodhi Road, Delhi - IMD" := Fetch.lodhi_road_entry]}).
Proof. vm_compute. reflexivity. Qed.

Example parse_rss_feed_malformed :
  Fetch.parse_rss_feed Fetch.sample_fromstring Fetch.sample_strptime
    Fetch.sample_float "<AqIndex><Station" = Return ∅.
Proof. vm_compute. reflexivity. Qed.

Example find_matching_station_fuzzy :
  Fetch.find_matching_station Fetch.prefix_ratio "Anand Vihar" Fetch.sample_stations
  = Some Fetch.anand_vihar.
Proof. vm_compute. reflexivity. Qed.

Example find_matching_station_none :
  Fetch.find_matching_station Fetch.prefix_ratio "Lodhi Road, Delhi - IMD"
    Fetch.sample_stations = None.
Proof. vm_compute. reflexivity. Qed.

(** The defined function does find the last timestamp of the sample
    world; [main] does not call it. *)
Example get_station_timestamps_sample :
  (Backfill.get_station_timestamps Backfill.sample_world).2 = Some 1767225600%Z.
Proof. vm_compute. reflexivity. Qed.

Lemma find_matching_station_spec_witness :
  let target := Fetch.normalize_station_name "Anand Vihar, Delhi - DPCC" in
  let norm row := Fetch.normalize_station_name (Fetch.station_name row) in
  (exists row, In row Fetch.sample_stations /\ norm row = target) /\
  exists row,
    Fetch.find_matching_station Fetch.prefix_ratio "Anand Vihar, Delhi - DPCC"
      Fetch.sample_stations = Some row /\
    In row Fetch.sample_stations /\ norm row = target.
Proof.
  intros target norm.
  assert (H : exists row, In row Fetch.sample_stations /\ norm row = target).
  { exists Fetch.anand_vihar. split; [right; left; reflexivity|].
    vm_compute. reflexivity. }
  split; [exact H|].
  exact (proj1 (find_matching_station_spec Fetch.prefix_ratio
                  "Anand Vihar, Delhi - DPCC" Fetch.sample_stations) H).
Defined.

Lemma sample_strptime_raises (s fmt : string) (e : exn) :
  Fetch.sample_strptime s fmt = Raise e -> e = ValueError.
Proof.
  unfold Fetch.sample_strptime. destruct (_ && _); congruence.
Qed.

Lemma sample_float_raises (s : string) (e : exn) :
  Fetch.sample_float s = Raise e -> e = ValueError.
Proof.
  unfold Fetch.sample_float. destruct s; [congruence|].
  destruct (Fetch.digits_value 0 _); congruence.
Qed.

Lemma sample_fromstring_raises (e : exn) :
  Fetch.sample_fromstring Fetch.sample_xml = Raise e -> e = ParseError.
Proof. vm_compute. discriminate. Qed.

Lemma parse_rss_feed_returns_mapping_witness :
  (forall s fmt e, Fetch.sample_strptime s fmt = Raise e -> e = ValueError) /\
  (forall s e, Fetch.sample_float s = Raise e -> e = ValueError) /\
  (forall e, Fetch.sample_fromstring Fetch.sample_xml = Raise e -> e = ParseError) /\
  exists stations_data,
    Fetch.parse_rss_feed Fetch.sample_fromstring Fetch.sample_strptime
      Fetch.sample_float Fetch.sample_xml = Return stations_data /\
    (forall e, Fetch.sample_fromstring Fetch.sample_xml = Raise e ->
       stations_data = ∅) /\
    (forall root, Fetch.sample_fromstring Fetch.sample_xml = Return root ->
       forall sid entry, stations_data !! sid = Some entry ->
         Fetch.entry_origin Fetch.sample_strptime Fetch.sample_float
           (Fetch.iter "Station" root) sid entry).
Proof.
  split; [exact sample_strptime_raises|].
  split; [exact sample_float_raises|].
  split; [exact sample_fromstring_raises|].
  exact (proj1 (parse_rss_feed_returns_mapping Fetch.sample_fromstring
                  Fetch.sample_strptime Fetch.sample_float
                  sample_strptime_raises sample_float_raises Fetch.sample_xml)
           sample_fromstring_raises).
Defined.

(** A string with a lone surrogate: [ET.fromstring] raises
    [UnicodeEncodeError], which the handler of line 97 does not catch, so
    [parse_rss_feed] raises and returns no mapping. *)
Lemma parse_rss_feed_surrogate_raises :
  Fetch.strict_fromstring Fetch.surrogate_xml = Raise UnicodeEncodeError /\
  Fetch.parse_rss_feed Fetch.strict_fromstring Fetch.sample_strptime
    Fetch.sample_float Fetch.surrogate_xml = Raise UnicodeEncodeError /\
  ~ exists stations_data,
      Fetch.parse_rss_feed Fetch.strict_fromstring Fetch.sample_strptime
        Fetch.sample_float Fetch.surrogate_xml = Return stations_data.
Proof.
  assert (H : Fetch.parse_rss_feed Fetch.strict_fromstring Fetch.sample_strptime
                Fetch.sample_float Fetch.surrogate_xml = Raise UnicodeEncodeError)
    by (vm_compute; reflexivity).
  split; [vm_compute; reflexivity|]. split; [exact H|].
  intros [m Hm]. rewrite H in Hm. discriminate.
Qed.





Lemma update_station_csv_needs_pm_witness :
  let new_cells := Fetch.map_pollutants (Fetch.pollutants Fetch.lodhi_road_entry) in
  new_cells !! "PM25" = None /\ new_cells !! "PM10" = None /\
  Fetch.update_station_csv Fetch.anand_vihar Fetch.lodhi_road_entry Fetch.sample_fs
    = (false, Fetch.sample_fs).
Proof.
  intros new_cells.
  assert (H1 : new_cells !! "PM25" = None) by (vm_compute; reflexivity).
  assert (H2 : new_cells !! "PM10" = None) by (vm_compute; reflexivity).
  split; [exact H1|]. split; [exact H2|].
  exact (proj2 (update_station_csv_needs_pm Fetch.anand_vihar
                  Fetch.lodhi_road_entry Fetch.sample_fs) H1 H2).
Defined.

Lemma combine_dedup_keeps_new_witness :
  let e := Backfill.sample_wind_row 1767225600 11 in
  let n := Backfill.sample_wind_row 1767225600 12 in
  In e [e] /\ In n [n] /\ Backfill.key e = Backfill.key n /\
  In n (Backfill.combine [e] [n]) /\ Backfill.key n = Backfill.key e /\
  In n [n].
Proof.
  intros e n.
  assert (H1 : In e [e]) by (left; reflexivity).
  assert (H2 : In n [n]) by (left; reflexivity).
  assert (H3 : Backfill.key e = Backfill.key n) by reflexivity.
  assert (H4 : In n (Backfill.combine [e] [n])) by (vm_compute; left; reflexivity).
  assert (H5 : Backfill.key n = Backfill.key e) by reflexivity.
  repeat (split; [assumption|]).
  exact (proj2 (proj2 (proj2 (combine_dedup_keeps_new [e] [n]))) e n n H1 H2 H3 H4 H5).
Defined.

Lemma main_raises_NameError_witness :
  Backfill.stations_csv Backfill.sample_world = Some (Return Fetch.sample_stations) /\
  Backfill.main Backfill.sample_callee Backfill.sample_world
    = Raise (NameError "get_last_timestamp").
Proof.
  split; [reflexivity|].
  exact (main_raises_NameError Backfill.sample_callee Backfill.sample_world
           Fetch.sample_stations eq_refl).
Defined.


(** * Further properties of the validation suite *)

Section SuiteExtras.

Import Suite.

Lemma for_each_Return {A : Type} (f : A -> outcome unit) (l : list A) :
  for_each f l = Return tt <-> forall a, In a l -> f a = Return tt.
Proof.
  induction l as [|a l IH]; simpl.
  - split; [intros _ a []|reflexivity].
  - destruct (f a) as [[]|e] eqn:Hfa; simpl.
    + rewrite IH. split.
      * intros H b [<-|Hb]; auto.
      * intros H b Hb. apply H. right. exact Hb.
    + split; [discriminate|]. intros H.
      specialize (H a (or_introl eq_refl)). congruence.
Qed.

(** A loop that meets a raising element raises what the first such
    element raises. *)
Lemma for_each_Raise {A : Type} (f : A -> outcome unit) (l : list A) (e : exn) :
  (forall a e', In a l -> f a = Raise e' -> e' = e) ->
  (exists a, In a l /\ f a = Raise e) ->
  for_each f l = Raise e.
Proof.
  induction l as [|a l IH]; simpl; intros Hall (b & Hb & Hfb); [destruct Hb|].
  destruct (f a) as [[]|e'] eqn:Hfa; simpl.
  - apply IH.
    + intros c e' Hc. apply Hall. right. exact Hc.
    + destruct Hb as [<-|Hb]; [congruence|]. eauto.
  - f_equal. apply (Hall a); auto.
Qed.

Lemma display_entry_Return (d : source_data) :
  display_entry d = Return tt <-> complete d.
Proof.
  unfold display_entry, complete.
  destruct (percentage d), (prior d), (modulation_factor d), (level d); simpl;
    (split;
     [ first [discriminate | intros _; repeat split; eauto]
     | first [reflexivity
             | intros (H1 & H2 & H3 & H4); exfalso;
               first [exact (is_Some_None H1) | exact (is_Some_None H2)
                     | exact (is_Some_None H3) | exact (is_Some_None H4)]] ]).
Qed.

Lemma display_Return (c : gmap string source_data) :
  display c = Return tt <-> forall k d, c !! k = Some d -> complete d.
Proof.
  unfold display.
  destruct (for_each
              (fun kv : string * source_data =>
                 subscript "percentage" (percentage kv.2) ;; Return tt)
              (map_to_list c)) as [[]|e] eqn:Hfirst; simpl.
  - rewrite for_each_Return. split.
    + intros H k d Hkd. apply display_entry_Return.
      apply (H (k, d)). apply list_elem_of_In, elem_of_map_to_list. exact Hkd.
    + intros H [k d] Hin. apply display_entry_Return. apply (H k).
      apply elem_of_map_to_list, list_elem_of_In. exact Hin.
  - split; [discriminate|]. intros H. exfalso.
    assert (Hret : for_each
              (fun kv : string * source_data =>
                 subscript "percentage" (percentage kv.2) ;; Return tt)
              (map_to_list c) = Return tt).
    { apply for_each_Return. intros [k d] Hin.
      apply list_elem_of_In, elem_of_map_to_list in Hin.
      destruct (H k d Hin) as ([x Hx] & _). simpl. rewrite Hx. reflexivity. }
    congruence.
Qed.

Lemma display_missing_percentage (c : gmap string source_data) :
  (exists k d, c !! k = Some d /\ percentage d = None) ->
  display c = Raise (KeyError "percentage").
Proof.
  intros (k & d & Hkd & Hd). unfold display.
  assert (Hfirst : for_each
            (fun kv : string * source_data =>
               subscript "percentage" (percentage kv.2) ;; Return tt)
            (map_to_list c) = Raise (KeyError "percentage")).
  { apply for_each_Raise.
    - intros [k' d'] e' _. simpl. destruct (percentage d'); simpl; congruence.
    - exists (k, d). split.
      + apply list_elem_of_In, elem_of_map_to_list. exact Hkd.
      + simpl. rewrite Hd. reflexivity. }
  rewrite Hfirst. reflexivity.
Qed.

Lemma validate_loop_false (check : string -> bool) (expected : list string) :
  validate_loop check expected false = false.
Proof.
  unfold validate_loop. induction expected as [|e l IH]; simpl; [reflexivity|].
  destruct (check e); exact IH.
Qed.

Lemma validate_loop_all (check : string -> bool) (expected : list string)
    (passed : bool) :
  (forall e, check e = true) -> validate_loop check expected passed = passed.
Proof.
  intros H. unfold validate_loop. revert passed.
  induction expected as [|e l IH]; intros passed; simpl; [reflexivity|].
  rewrite H. apply IH.
Qed.

Lemma validate_loop_none (check : string -> bool) (expected : list string) :
  (forall e, check e = false) ->
  validate_loop check expected true = bool_decide (expected = []).
Proof.
  intros H. destruct expected as [|e l]; [reflexivity|].
  unfold validate_loop. simpl. rewrite H.
  apply (validate_loop_false check l).
Qed.

End SuiteExtras.

(** X1.  A response without a [contributions] object, or with an empty
    one, passes exactly the test cases that expect no elevated source:
    an absent source counts as 0 percent with an empty level, which is
    "low" and not "elevated". *)
Theorem run_test_empty_response (tc : Suite.test_case) (result : Suite.response) :
  Suite.contributions result = None \/ Suite.contributions result = Some ∅ ->
  Suite.run_test tc (Some result)
  = Return (bool_decide (Suite.expected_high tc = [])).
Proof.
  intros H. unfold Suite.run_test.
  assert (Hc : default ∅ (Suite.contributions result) = ∅)
    by (destruct H as [-> | ->]; reflexivity).
  rewrite Hc. simpl.
  rewrite (validate_loop_none (Suite.check_high ∅)) by reflexivity.
  rewrite (validate_loop_all (Suite.check_low ∅)) by reflexivity.
  reflexivity.
Qed.

Lemma run_test_empty_response_witness :
  (Suite.contributions {| Suite.contributions := None |} = None \/
   Suite.contributions {| Suite.contributions := None |} = Some ∅) /\
  Suite.run_test Suite.test_2 (Some {| Suite.contributions := None |})
  = Return (bool_decide (Suite.expected_high Suite.test_2 = [])).
Proof.
  assert (H : Suite.contributions {| Suite.contributions := None |} = None \/
              Suite.contributions {| Suite.contributions := None |} = Some ∅)
    by (left; reflexivity).
  split; [exact H|].
  exact (run_test_empty_response Suite.test_2 {| Suite.contributions := None |} H).
Defined.

(** X2.  When [run_test] returns a verdict on a response, every entry
    of [contributions] has the fields [percentage], [prior],
    [modulation_factor] and [level]: an entry that lacks one makes the
    display loop raise.  An entry without [percentage] makes it raise
    [KeyError('percentage')], whether or not the test case names that
    source. *)
Theorem run_test_returns_only_if_complete (tc : Suite.test_case)
    (result : Suite.response) :
  let c := default ∅ (Suite.contributions result) in
  ((exists verdict, Suite.run_test tc (Some result) = Return verdict) ->
   forall k d, c !! k = Some d -> Suite.complete d) /\
  ((exists k d, c !! k = Some d /\ Suite.percentage d = None) ->
   Suite.run_test tc (Some result) = Raise (KeyError "percentage")).
Proof.
  intros c. unfold Suite.run_test. fold c. split.
  - intros [verdict Hrun].
    destruct (Suite.display c) as [[]|e] eqn:Hdisplay; simpl in Hrun;
      [|discriminate].
    exact (proj1 (display_Return c) Hdisplay).
  - intros H. rewrite (display_missing_percentage c H). reflexivity.
Qed.

Lemma run_test_returns_only_if_complete_witness :
  (exists k d, default ∅ (Suite.contributions Suite.response_incomplete) !! k = Some d /\
     Suite.percentage d = None) /\
  Suite.run_test Suite.test_1 (Some Suite.response_incomplete)
  = Raise (KeyError "percentage").
Proof.
  assert (H : exists k d,
             default ∅ (Suite.contributions Suite.response_incomplete) !! k = Some d /\
             Suite.percentage d = None).
  { exists "traffic". eexists. split; [vm_compute; reflexivity|reflexivity]. }
  split; [exact H|].
  exact (proj2 (run_test_returns_only_if_complete Suite.test_1
                  Suite.response_incomplete) H).
Defined.

Section SuiteMainFacts.

Import Suite.

Variable api : test_case -> option response.

(** The loop of [main]: it returns one verdict per case, in order, and
    raises what the first raising case raises. *)
Lemma run_loop_spec (cases : list test_case) (acc : list (string * bool)) :
  match for_loop
          (fun results tc =>
             passed ← run_test tc (api tc);
             Return (results ++ [(name tc, passed)])%list)
          cases acc with
  | Return results =>
      exists verdicts,
        Forall2 (fun tc v => run_test tc (api tc) = Return v) cases verdicts /\
        results = (acc ++ zip (name <$> cases) verdicts)%list
  | Raise e => exists tc, In tc cases /\ run_test tc (api tc) = Raise e
  end.
Proof.
  revert acc. induction cases as [|tc cases IH]; intros acc; simpl.
  - exists []. split; [constructor|]. rewrite app_nil_r. reflexivity.
  - destruct (run_test tc (api tc)) as [v|e] eqn:Hrun; simpl.
    + specialize (IH (acc ++ [(name tc, v)])%list).
      destruct (for_loop _ cases _) as [results|e].
      * destruct IH as (vs & Hvs & ->). exists (v :: vs).
        split; [constructor; assumption|].
        rewrite <- app_assoc. reflexivity.
      * destruct IH as (tc' & Hin & Hr). exists tc'. split; [right|]; assumption.
    + exists tc. split; [left; reflexivity|exact Hrun].
Qed.

Lemma count_passed (names : list string) (verdicts : list bool) :
  length names = length verdicts ->
  (length (filter (fun r : string * bool => r.2 = true) (zip names verdicts))
   = length (zip names verdicts) <->
   Forall (fun v => v = true) verdicts).
Proof.
  revert verdicts. induction names as [|n names IH]; intros [|v vs] Hlen;
    simpl in *; try discriminate.
  - split; [constructor|reflexivity].
  - injection Hlen as Hlen. specialize (IH vs Hlen). destruct v.
    + rewrite filter_cons_True by reflexivity. simpl. rewrite Forall_cons.
      split.
      * intros [= H]. split; [reflexivity|]. apply IH. exact H.
      * intros [_ H]. f_equal. apply IH. exact H.
    + rewrite filter_cons_False by (simpl; discriminate). split.
      * intros H.
        pose proof (length_filter (fun r : string * bool => r.2 = true)
                      (zip names vs)) as Hle.
        simpl in H. lia.
      * intros H. apply Forall_cons in H as [[=] _].
Qed.

Lemma verdicts_all_true (cases : list test_case) (verdicts : list bool) :
  Forall2 (fun tc v => run_test tc (api tc) = Return v) cases verdicts ->
  (Forall (fun v => v = true) verdicts <->
   forall tc, In tc cases -> run_test tc (api tc) = Return true).
Proof.
  induction 1 as [|tc v cases vs Hrun _ IH]; simpl.
  - split; [intros _ tc []|constructor].
  - rewrite Forall_cons, IH. split.
    + intros [-> Hall] tc' [<-|Hin]; auto.
    + intros Hall. split.
      * specialize (Hall tc (or_introl eq_refl)). congruence.
      * intros tc' Hin. apply Hall. right. exact Hin.
Qed.

End SuiteMainFacts.

(** X3.  The suite's [main] returns [True], and the process exits with
    code 0, exactly when [run_test] returns [True] on each of the twelve
    test cases; in particular one failed API call, or one failed
    expectation, fails the suite. *)
Theorem suite_main_true_iff (api : Suite.test_case -> option Suite.response) :
  (Suite.main api = Return true <->
   forall tc, In tc Suite.TEST_CASES -> Suite.run_test tc (api tc) = Return true) /\
  (forall success, Suite.main api = Return success ->
     (Suite.exit_code success = 0%Z <-> success = true)).
Proof.
  split.
  - unfold Suite.main, Suite.run_all.
    pose proof (run_loop_spec api Suite.TEST_CASES []) as Hloop.
    destruct (for_loop _ Suite.TEST_CASES []) as [results|e]; simpl.
    + destruct Hloop as (vs & Hvs & ->). simpl.
      assert (Hlen : length (Suite.name <$> Suite.TEST_CASES) = length vs).
      { rewrite length_fmap. eapply Forall2_length. exact Hvs. }
      rewrite <- (verdicts_all_true api _ _ Hvs).
      rewrite <- (count_passed _ _ Hlen).
      split.
      * intros [= Hb]. apply bool_decide_eq_true in Hb. exact Hb.
      * intros Hb. f_equal. apply bool_decide_eq_true. exact Hb.
    + destruct Hloop as (tc & Hin & Hraise).
      split; [discriminate|]. intros Hall.
      specialize (Hall tc Hin). congruence.
  - intros [] _; simpl; split; congruence.
Qed.

Lemma suite_main_true_iff_witness :
  (forall tc, In tc Suite.TEST_CASES ->
     Suite.run_test tc (Suite.sample_api tc) = Return true) /\
  Suite.main Suite.sample_api = Return true.
Proof.
  assert (H : forall tc, In tc Suite.TEST_CASES ->
                Suite.run_test tc (Suite.sample_api tc) = Return true).
  { intros tc Htc. simpl in Htc.
    repeat (destruct Htc as [<-|Htc]; [vm_compute; reflexivity|]).
    destruct Htc. }
  split; [exact H|].
  exact (proj2 (proj1 (suite_main_true_iff Suite.sample_api)) H).
Defined.

(** * Further properties of the feed ingester *)

Section NormalizeFacts.

Import PyStr.

Lemma lower_char_idem (c : ascii) : lower_char (lower_char c) = lower_char c.
Proof.
  destruct c as [[] [] [] [] [] [] [] []]; vm_compute; reflexivity.
Qed.

Lemma chars_lower (s : string) :
  Forall (fun c => lower_char c = c) (list_ascii_of_string (lower s)).
Proof.
  induction s as [|c s IH]; simpl; constructor; auto using lower_char_idem.
Qed.

Lemma chars_append (P : ascii -> Prop) (a b : string) :
  Forall P (list_ascii_of_string a) ->
  Forall P (list_ascii_of_string b) ->
  Forall P (list_ascii_of_string (String.append a b)).
Proof.
  intros Ha Hb. induction a as [|c a IH]; simpl; [exact Hb|].
  apply Forall_cons in Ha as [Hc Ha]. constructor; auto.
Qed.

(** The characters of a replacement come from the string or from the
    new text. *)
Lemma chars_replace_from (P : ascii -> Prop) (old new : string) (skip : nat)
    (s : string) :
  Forall P (list_ascii_of_string new) ->
  Forall P (list_ascii_of_string s) ->
  Forall P (list_ascii_of_string (replace_from old new skip s)).
Proof.
  intros Hnew. revert skip. induction s as [|c s IH]; intros skip Hs; simpl.
  - constructor.
  - apply Forall_cons in Hs as [Hc Hs]. destruct skip as [|k]; [|auto].
    match goal with
    | |- context [if ?b then _ else _] => destruct b
    end.
    + apply chars_append; auto.
    + simpl. constructor; auto.
Qed.

Lemma chars_lstrip (P : ascii -> Prop) (s : string) :
  Forall P (list_ascii_of_string s) ->
  Forall P (list_ascii_of_string (lstrip s)).
Proof.
  induction s as [|c s IH]; simpl; [auto|].
  intros Hs. destruct (isspace c); [|exact Hs].
  apply Forall_cons in Hs as [_ Hs]. auto.
Qed.

Lemma chars_rstrip (P : ascii -> Prop) (s : string) :
  Forall P (list_ascii_of_string s) ->
  Forall P (list_ascii_of_string (rstrip s)).
Proof.
  induction s as [|c s IH]; simpl; [auto|].
  intros Hs. apply Forall_cons in Hs as [Hc Hs]. specialize (IH Hs).
  destruct (rstrip s) as [|d r].
  - destruct (isspace c); simpl; [constructor|]. constructor; [exact Hc|constructor].
  - simpl. constructor; [exact Hc|exact IH].
Qed.

Lemma chars_strip (P : ascii -> Prop) (s : string) :
  Forall P (list_ascii_of_string s) ->
  Forall P (list_ascii_of_string (strip s)).
Proof. intros H. apply chars_rstrip, chars_lstrip, H. Qed.

Lemma chars_remove_comma (s : string) :
  Forall (fun c => c <> ","%char) (list_ascii_of_string (replace "," "" s)).
Proof.
  assert (Hp : forall c t, String.prefix "," (String c t)
                           = if ascii_dec "," c then true else false).
  { intros c t. change (String.prefix "," (String c t))
      with (if ascii_dec "," c then String.prefix "" t else false).
    destruct (ascii_dec "," c); [destruct t|]; reflexivity. }
  unfold replace. induction s as [|c s IH]; [constructor|].
  cbn [replace_from]. rewrite Hp.
  destruct (ascii_dec "," c) as [<-|Hne].
  - exact IH.
  - cbn [list_ascii_of_string]. constructor; [congruence|exact IH].
Qed.

Lemma lstrip_head (s : string) :
  match lstrip s with
  | EmptyString => True
  | String c _ => isspace c = false
  end.
Proof.
  induction s as [|c s IH]; simpl; [exact I|].
  destruct (isspace c) eqn:Hc; [exact IH|exact Hc].
Qed.

Lemma rstrip_head (c : ascii) (s : string) :
  isspace c = false -> exists r, rstrip (String c s) = String c r.
Proof.
  intros Hc. simpl. destruct (rstrip s) as [|d r]; [rewrite Hc|]; eauto.
Qed.

Lemma rstrip_idem (s : string) : rstrip (rstrip s) = rstrip s.
Proof.
  induction s as [|c s IH]; simpl; [reflexivity|].
  destruct (rstrip s) as [|d r] eqn:Hr.
  - destruct (isspace c) eqn:Hc; simpl; [reflexivity|]. rewrite Hc. reflexivity.
  - change (rstrip (String c (String d r)) = String c (String d r)).
    simpl in IH |- *. destruct (rstrip r) as [|d' r'] eqn:Hr'.
    + destruct (isspace d); [discriminate|]. rewrite IH. reflexivity.
    + rewrite IH. reflexivity.
Qed.

Lemma strip_idem (s : string) : strip (strip s) = strip s.
Proof.
  unfold strip. pose proof (lstrip_head s) as Hhead.
  destruct (lstrip s) as [|c t] eqn:Ht; [reflexivity|].
  destruct (rstrip_head c t Hhead) as (r & Hr).
  rewrite Hr. simpl lstrip. rewrite Hhead, <- Hr. apply rstrip_idem.
Qed.

Lemma chars_remove_all (P : ascii -> Prop) (olds : list string) (s : string) :
  Forall P (list_ascii_of_string s) ->
  Forall P (list_ascii_of_string
              (fold_left (fun name old => replace old "" name) olds s)).
Proof.
  revert s. induction olds as [|x l IH]; intros s Hs; simpl; [exact Hs|].
  apply IH. apply chars_replace_from; [constructor|exact Hs].
Qed.

Lemma lower_fixed (s : string) :
  Forall (fun c => lower_char c = c) (list_ascii_of_string s) -> lower s = s.
Proof.
  induction s as [|c s IH]; simpl; [reflexivity|].
  intros H. apply Forall_cons in H as [Hc H]. rewrite Hc, IH by exact H.
  reflexivity.
Qed.

Lemma lower_char_ascii (c : ascii) :
  (nat_of_ascii c <? 128)%nat = true ->
  (nat_of_ascii (lower_char c) <? 128)%nat = true.
Proof.
  unfold lower_char. intros Hc.
  destruct ((65 <=? nat_of_ascii c)%nat && (nat_of_ascii c <=? 90)%nat) eqn:Hup;
    [|exact Hc].
  apply andb_true_iff in Hup as [_ Hle]. apply Nat.leb_le in Hle.
  rewrite nat_ascii_embedding by lia. apply Nat.ltb_lt. lia.
Qed.

Lemma chars_lower_ascii (s : string) :
  Forall (fun c => (nat_of_ascii c <? 128)%nat = true) (list_ascii_of_string s) ->
  Forall (fun c => (nat_of_ascii c <? 128)%nat = true)
    (list_ascii_of_string (lower s)).
Proof.
  induction s as [|c s IH]; simpl; [auto|].
  intros H. apply Forall_cons in H as [Hc H].
  constructor; [apply lower_char_ascii; exact Hc|auto].
Qed.

Lemma isascii_chars (s : string) :
  isascii s = true <->
  Forall (fun c => (nat_of_ascii c <? 128)%nat = true) (list_ascii_of_string s).
Proof.
  unfold isascii. rewrite forallb_forall, Forall_forall.
  split; intros H c Hc; apply H; apply list_elem_of_In; exact Hc.
Qed.

End NormalizeFacts.

(** X4.  The normalised form of an ASCII station name is ASCII, is in
    lower case, has no comma, and has no white space at either end. *)
Theorem normalize_station_name_shape (name : string) :
  PyStr.isascii name = true ->
  let n := Fetch.normalize_station_name name in
  PyStr.isascii n = true /\
  PyStr.lower n = n /\
  ~ In ","%char (list_ascii_of_string n) /\
  PyStr.strip n = n.
Proof.
  intros Hascii n. subst n. unfold Fetch.normalize_station_name.
  split; [|split; [|split]].
  - apply isascii_chars. apply isascii_chars in Hascii.
    apply chars_strip.
    apply chars_replace_from; [repeat constructor|].
    apply chars_replace_from; [constructor|].
    apply chars_remove_all, chars_strip, chars_lower_ascii, Hascii.
  - apply lower_fixed, chars_strip.
    apply chars_replace_from; [repeat constructor|].
    apply chars_replace_from; [constructor|].
    apply chars_remove_all, chars_strip, chars_lower.
  - assert (H : Forall (fun c => c <> ","%char)
                  (list_ascii_of_string
                     (PyStr.strip (PyStr.replace "  " " "
                        (PyStr.replace "," ""
                           (fold_left (fun name suffix => PyStr.replace suffix "" name)
                              Fetch.suffixes
                              (PyStr.strip (PyStr.lower name)))))))).
    { apply chars_strip.
      apply chars_replace_from; [repeat constructor; discriminate|].
      apply chars_remove_comma. }
    rewrite Forall_forall in H. intros Hin.
    apply (H ","%char); [apply list_elem_of_In; exact Hin|reflexivity].
  - apply strip_idem.
Qed.

Lemma normalize_station_name_shape_witness :
  PyStr.isascii "  Anand Vihar, Delhi - DPCC " = true /\
  let n := Fetch.normalize_station_name "  Anand Vihar, Delhi - DPCC " in
  n = "anand vihar delhi" /\
  PyStr.isascii n = true /\
  PyStr.lower n = n /\
  ~ In ","%char (list_ascii_of_string n) /\
  PyStr.strip n = n.
Proof.
  assert (H : PyStr.isascii "  Anand Vihar, Delhi - DPCC " = true)
    by (vm_compute; reflexivity).
  split; [exact H|]. intros n. split; [vm_compute; reflexivity|].
  exact (normalize_station_name_shape "  Anand Vihar, Delhi - DPCC " H).
Defined.

Section MatchingOrder.

Import Fetch.
Local Open Scope Q_scope.

Variable ratio : string -> string -> Q.

(** The exact match returned is the first one of the table. *)
Lemma find_loop_first_exact (target : string) (rows : list station_row)
    (best_match : option station_row) (best_score : Q) (row : station_row) :
  find_loop ratio target rows best_match best_score = Some row ->
  normalize_station_name (station_name row) = target ->
  (forall b, best_match = Some b -> normalize_station_name (station_name b) <> target) ->
  exists before after, rows = (before ++ row :: after)%list /\
    forall r, In r before -> normalize_station_name (station_name r) <> target.
Proof.
  revert best_match best_score.
  induction rows as [|r rest IH]; intros bm bs Hres Hrow Hbm; simpl in Hres.
  - exfalso. exact (Hbm row Hres Hrow).
  - destruct (String.eqb target _) eqn:Heq.
    + injection Hres as <-. exists [], rest. split; [reflexivity|]. intros r' [].
    + apply String.eqb_neq in Heq.
      assert (Hstep : exists bm' bs',
                find_loop ratio target rest bm' bs' = Some row /\
                forall b, bm' = Some b ->
                  normalize_station_name (station_name b) <> target).
      { destruct (Qlt_bool bs _ && Qlt_bool (6 # 10) _).
        - eexists _, _. split; [exact Hres|]. intros b [= <-]. congruence.
        - eexists _, _. split; [exact Hres|]. exact Hbm. }
      destruct Hstep as (bm' & bs' & Hres' & Hbm').
      destruct (IH bm' bs' Hres' Hrow Hbm') as (before & after & -> & Hbefore).
      exists (r :: before), after. split; [reflexivity|].
      intros r' [<-|Hin]; [congruence|auto].
Qed.

(** Without an equal name, a changed accumulator is the first row of
    greatest score: earlier rows score strictly less, later rows no
    more. *)
Lemma find_loop_first_best (target : string) (rows : list station_row)
    (best_match : option station_row) (best_score : Q) :
  (forall row, In row rows -> normalize_station_name (station_name row) <> target) ->
  (find_loop ratio target rows best_match best_score = best_match /\
   forall row, In row rows ->
     ~ (best_score < score_of ratio target row /\ 6 # 10 < score_of ratio target row))
  \/
  (exists best before after,
     find_loop ratio target rows best_match best_score = Some best /\
     rows = (before ++ best :: after)%list /\
     best_score < score_of ratio target best /\
     6 # 10 < score_of ratio target best /\
     (forall r, In r before -> score_of ratio target r < score_of ratio target best) /\
     (forall r, In r after -> score_of ratio target r <= score_of ratio target best)).
Proof.
  revert best_match best_score.
  induction rows as [|r rest IH]; intros bm bs Hne.
  - left. split; [reflexivity|]. intros row [].
  - simpl.
    assert (Hr : String.eqb target (normalize_station_name (station_name r)) = false).
    { apply String.eqb_neq. intros E. apply (Hne r); [left; reflexivity|congruence]. }
    rewrite Hr.
    assert (Hrest : forall row, In row rest ->
              normalize_station_name (station_name row) <> target).
    { intros row Hin. apply Hne. right. exact Hin. }
    fold (score_of ratio target r).
    destruct (Qlt_bool bs (score_of ratio target r) &&
              Qlt_bool (6 # 10) (score_of ratio target r)) eqn:Hcond.
    + apply andb_true_iff in Hcond as [H1 H2].
      apply Qlt_bool_iff in H1. apply Qlt_bool_iff in H2.
      right. destruct (IH (Some r) (score_of ratio target r) Hrest)
        as [[Hres Hnone] | (b & before & after & Hres & -> & Hb1 & Hb2 & Hlt & Hle)].
      * exists r, [], rest. split; [exact Hres|]. split; [reflexivity|].
        split; [exact H1|]. split; [exact H2|]. split; [intros r' []|].
        intros row Hin. apply Qnot_lt_le. intros Hlt. apply (Hnone row Hin).
        split; [exact Hlt|]. eapply Qlt_trans; eassumption.
      * exists b, (r :: before), after. split; [exact Hres|].
        split; [reflexivity|]. split; [eapply Qlt_trans; eassumption|].
        split; [exact Hb2|]. split; [|exact Hle].
        intros r' [<-|Hin]; [exact Hb1|auto].
    + assert (Hnot : ~ (bs < score_of ratio target r /\ 6 # 10 < score_of ratio target r)).
      { intros [H1 H2]. apply Qlt_bool_iff in H1. apply Qlt_bool_iff in H2.
        rewrite H1, H2 in Hcond. discriminate. }
      destruct (IH bm bs Hrest)
        as [[Hres Hnone] | (b & before & after & Hres & -> & Hb1 & Hb2 & Hlt & Hle)].
      * left. split; [exact Hres|].
        intros row [<-|Hin]; [exact Hnot|auto].
      * right. exists b, (r :: before), after. split; [exact Hres|].
        split; [reflexivity|]. split; [exact Hb1|]. split; [exact Hb2|].
        split; [|exact Hle].
        intros r' [<-|Hin]; [|auto].
        destruct (Qlt_le_dec bs (score_of ratio target r)) as [Hbs|Hbs].
        -- destruct (Qlt_le_dec (6 # 10) (score_of ratio target r)) as [H6|H6].
           ++ exfalso. apply Hnot. split; assumption.
           ++ eapply Qle_lt_trans; eassumption.
        -- eapply Qle_lt_trans; eassumption.
Qed.

End MatchingOrder.

(** X5.  A row returned by [find_matching_station] is a row of the
    table, and the first of its kind: either it is the first row whose
    normalised name equals the feed's, or no row has an equal name, its
    ratio exceeds 0.6, every earlier row has a strictly smaller ratio and
    every later row a ratio no greater (ties go to the earlier row). *)
Theorem find_matching_station_first (ratio : string -> string -> Q)
    (rss_name : string) (our_stations : list Fetch.station_row)
    (row : Fetch.station_row) :
  Fetch.find_matching_station ratio rss_name our_stations = Some row ->
  let target := Fetch.normalize_station_name rss_name in
  let norm r := Fetch.normalize_station_name (Fetch.station_name r) in
  exists before after, our_stations = (before ++ row :: after)%list /\
    ((norm row = target /\ forall r, In r before -> norm r <> target)
     \/
     ((forall r, In r our_stations -> norm r <> target) /\
      (6 # 10 < ratio target (norm row))%Q /\
      (forall r, In r before -> (ratio target (norm r) < ratio target (norm row))%Q) /\
      (forall r, In r after -> (ratio target (norm r) <= ratio target (norm row))%Q))).
Proof.
  intros Hres target norm. unfold Fetch.find_matching_station in Hres.
  fold target in Hres.
  destruct (decide (Exists (fun r => norm r = target) our_stations))
    as [Hex|Hnone].
  - apply Exists_exists in Hex as (r0 & Hin0 & Hr0).
    apply list_elem_of_In in Hin0.
    destruct (find_loop_exact ratio target our_stations None 0
                (ex_intro _ r0 (conj Hin0 Hr0))) as (row' & Hres' & _ & Hrow').
    rewrite Hres in Hres'. injection Hres' as <-.
    destruct (find_loop_first_exact ratio target our_stations None 0 row
                Hres Hrow') as (before & after & Heq & Hbefore); [discriminate|].
    exists before, after. split; [exact Heq|]. left. auto.
  - assert (Hne : forall r, In r our_stations -> norm r <> target).
    { intros r Hin E. apply Hnone. apply Exists_exists. exists r.
      split; [apply list_elem_of_In; exact Hin|exact E]. }
    destruct (find_loop_first_best ratio target our_stations None 0 Hne)
      as [[Hres' _] | (b & before & after & Hres' & Heq & _ & Hb & Hlt & Hle)].
    + congruence.
    + rewrite Hres in Hres'. injection Hres' as <-.
      exists before, after. split; [exact Heq|]. right. auto.
Qed.

Lemma find_matching_station_first_witness :
  Fetch.find_matching_station Fetch.prefix_ratio "Anand Vihar" Fetch.sample_stations
    = Some Fetch.anand_vihar /\
  let target := Fetch.normalize_station_name "Anand Vihar" in
  let norm r := Fetch.normalize_station_name (Fetch.station_name r) in
  exists before after, Fetch.sample_stations = (before ++ Fetch.anand_vihar :: after)%list /\
    ((norm Fetch.anand_vihar = target /\ forall r, In r before -> norm r <> target)
     \/
     ((forall r, In r Fetch.sample_stations -> norm r <> target) /\
      (6 # 10 < Fetch.prefix_ratio target (norm Fetch.anand_vihar))%Q /\
      (forall r, In r before ->
         (Fetch.prefix_ratio target (norm r)
          < Fetch.prefix_ratio target (norm Fetch.anand_vihar))%Q) /\
      (forall r, In r after ->
         (Fetch.prefix_ratio target (norm r)
          <= Fetch.prefix_ratio target (norm Fetch.anand_vihar))%Q))).
Proof.
  assert (H : Fetch.find_matching_station Fetch.prefix_ratio "Anand Vihar"
                Fetch.sample_stations = Some Fetch.anand_vihar)
    by (vm_compute; reflexivity).
  split; [exact H|].
  exact (find_matching_station_first Fetch.prefix_ratio "Anand Vihar"
           Fetch.sample_stations Fetch.anand_vihar H).
Defined.

#[global] Instance by_local_time_total : Total Fetch.by_local_time.
Proof. intros r1 r2. unfold Fetch.by_local_time. lia. Qed.

Section UpdateExtras.

Import Fetch.

Lemma update_station_csv_no_table (station : station_row) (rss_data : station_data)
    (fs : gmap string file) :
  (forall df, fs !! csv_path_of station <> Some (Table df)) ->
  update_station_csv station rss_data fs = (false, fs).
Proof.
  intros H. unfold update_station_csv.
  destruct (fs !! csv_path_of station) as [[|df]|] eqn:Hfile; try reflexivity.
  exfalso. exact (H df eq_refl).
Qed.

End UpdateExtras.


(** X7.  A call of [update_station_csv] touches no path but the
    station's own; a call that returns [True] found a readable file there
    and replaced it by its rows and one new row, sorted by [Local Time];
    a call that returns [False] wrote nothing. *)
Theorem update_station_csv_writes (station : Fetch.station_row)
    (rss_data : Fetch.station_data) (fs : gmap string Fetch.file) :
  let '(verdict, fs') := Fetch.update_station_csv station rss_data fs in
  (forall path, path <> Fetch.csv_path_of station -> fs' !! path = fs !! path) /\
  (verdict = false -> fs' = fs) /\
  (verdict = true ->
   exists df df' new_row,
     fs !! Fetch.csv_path_of station = Some (Fetch.Table df) /\
     fs' = <[Fetch.csv_path_of station := Fetch.Table df']> fs /\
     Fetch.Local_Time new_row = Fetch.to_datetime_ist (Fetch.timestamp rss_data) /\
     Fetch.cells new_row = Fetch.map_pollutants (Fetch.pollutants rss_data) /\
     df' ≡ₚ df ++ [new_row] /\
     Sorted Fetch.by_local_time df' /\
     length df' = S (length df)).
Proof.
  destruct (fs !! Fetch.csv_path_of station) as [[|df]|] eqn:Hfile.
  - rewrite (update_station_csv_no_table station rss_data fs) by congruence.
    split; [reflexivity|]. split; [reflexivity|discriminate].
  - destruct (update_station_csv_cases station rss_data fs df Hfile)
      as [[-> _] | (-> & _ & _)].
    + split; [reflexivity|]. split; [reflexivity|discriminate].
    + split; [intros path Hpath; apply lookup_insert_ne; congruence|].
      split; [discriminate|]. intros _.
      exists df.
      eexists (Fetch.sort_values (df ++ [_])),
              {| Fetch.Local_Time := Fetch.to_datetime_ist (Fetch.timestamp rss_data);
                 Fetch.cells := Fetch.map_pollutants (Fetch.pollutants rss_data) |}.
      split; [reflexivity|]. split; [reflexivity|].
      split; [reflexivity|]. split; [reflexivity|].
      unfold Fetch.sort_values. split; [apply merge_sort_Permutation|].
      split; [apply (Sorted_merge_sort _)|].
      rewrite merge_sort_Permutation, length_app. simpl. lia.
  - rewrite (update_station_csv_no_table station rss_data fs) by congruence.
    split; [reflexivity|]. split; [reflexivity|discriminate].
Qed.

Section ColumnFacts.

Import Fetch.

(** The loop that fills [new_row], for any mapping with distinct
    columns: a column holds the feed's value under the id mapped to it. *)
Lemma fill_columns_lookup (rss_pollutants : gmap string pvalue)
    (mapping : list (string * string)) (new_row : gmap string pvalue)
    (col : string) :
  NoDup mapping.*2 ->
  fold_left
    (fun new_row '(rss_key, csv_col) =>
       match rss_pollutants !! rss_key with
       | Some v => <[csv_col := v]> new_row
       | None => new_row
       end)
    mapping new_row !! col
  = match list_find (fun kv => kv.2 = col) mapping with
    | Some (_, (rss_key, _)) =>
        match rss_pollutants !! rss_key with
        | Some v => Some v
        | None => new_row !! col
        end
    | None => new_row !! col
    end.
Proof.
  revert new_row. induction mapping as [|[k c] l IH]; intros new_row Hnd; simpl.
  - reflexivity.
  - apply NoDup_cons in Hnd as [Hc Hnd]. rewrite (IH _ Hnd).
    destruct (decide (c = col)) as [->|Hne].
    + assert (Hfind : list_find (fun kv : string * string => kv.2 = col) l = None).
      { apply list_find_None. apply Forall_forall. intros [k' c'] Hin E.
        simpl in E. subst c'. apply Hc. apply list_elem_of_fmap.
        exists (k', col). auto. }
      rewrite Hfind. simpl.
      destruct (rss_pollutants !! k); [apply lookup_insert_eq|reflexivity].
    + destruct (list_find _ l) as [[i [k' c']]|]; simpl.
      * destruct (rss_pollutants !! k'); [reflexivity|].
        destruct (rss_pollutants !! k); [apply lookup_insert_ne; exact Hne|reflexivity].
      * destruct (rss_pollutants !! k); [apply lookup_insert_ne; exact Hne|reflexivity].
Qed.

Lemma POLLUTANT_MAP_columns_NoDup : NoDup POLLUTANT_MAP.*2.
Proof. apply (bool_decide_unpack _). vm_compute. exact I. Qed.

Lemma map_pollutants_lookup (rss_pollutants : gmap string pvalue) (col : string) :
  map_pollutants rss_pollutants !! col
  = match list_find (fun kv => kv.2 = col) POLLUTANT_MAP with
    | Some (_, (rss_key, _)) => rss_pollutants !! rss_key
    | None => None
    end.
Proof.
  unfold map_pollutants.
  rewrite (fill_columns_lookup _ _ _ _ POLLUTANT_MAP_columns_NoDup).
  destruct (list_find _ POLLUTANT_MAP) as [[i [k c]]|]; [|apply lookup_empty].
  destruct (rss_pollutants !! k); [reflexivity|apply lookup_empty].
Qed.

End ColumnFacts.

(** X8.  The cells of a new row are the feed's values under the seven
    mapped pollutant ids, renamed to their CSV columns ([PM2.5] to [PM25],
    [OZONE] to [O3]); nothing else of the feed entry, the [AQI] value in
    particular, reaches the station file. *)
Theorem map_pollutants_columns (rss_pollutants : gmap string Fetch.pvalue) :
  let new_row := Fetch.map_pollutants rss_pollutants in
  new_row !! "PM25" = rss_pollutants !! "PM2.5" /\
  new_row !! "PM10" = rss_pollutants !! "PM10" /\
  new_row !! "NO2" = rss_pollutants !! "NO2" /\
  new_row !! "SO2" = rss_pollutants !! "SO2" /\
  new_row !! "CO" = rss_pollutants !! "CO" /\
  new_row !! "O3" = rss_pollutants !! "OZONE" /\
  new_row !! "NH3" = rss_pollutants !! "NH3" /\
  forall col, ~ In col ["PM25"; "PM10"; "NO2"; "SO2"; "CO"; "O3"; "NH3"] ->
    new_row !! col = None.
Proof.
  intros new_row. subst new_row.
  repeat (split; [rewrite map_pollutants_lookup; reflexivity|]).
  intros col Hcol. rewrite map_pollutants_lookup.
  destruct (list_find _ Fetch.POLLUTANT_MAP) as [[i [k c]]|] eqn:Hfind;
    [|reflexivity].
  exfalso. apply list_find_Some in Hfind as (Hi & Hc & _). simpl in Hc. subst c.
  apply Hcol. apply list_elem_of_lookup_2 in Hi.
  apply list_elem_of_In in Hi. simpl in Hi |- *.
  repeat (destruct Hi as [[= _ <-]|Hi]; [tauto|]). destruct Hi.
Qed.

Section ParsingExtras.

Import Fetch.

Variable fromstring : string -> outcome element.
Variable strptime : string -> string -> outcome datetime.
Variable float : string -> outcome pyfloat.

Hypothesis strptime_raises :
  forall s fmt e, strptime s fmt = Raise e -> e = ValueError.
Hypothesis float_raises :
  forall s e, float s = Raise e -> e = ValueError.

(** The loop over [Pollutant_Index] stores floats only. *)
Lemma pollutants_loop_floats (l : list element) :
  exists pollutants,
    for_loop (pollutant_step float) l ∅ = Return pollutants /\
    forall k v, pollutants !! k <> Some (PAttr v).
Proof.
  apply for_loop_invariant.
  - intros k v H. rewrite lookup_empty in H. discriminate.
  - intros s p Hp Hs.
    destruct (pollutant_step_cases float float_raises s p)
      as [Hsame | (k & hv & f & _ & _ & _ & _ & Hstep)].
    + exists s. auto.
    + exists (<[k := PFloat f]> s). split; [exact Hstep|].
      intros k' v Hlook. destruct (decide (k = k')) as [<-|Hne].
      * rewrite lookup_insert_eq in Hlook. discriminate.
      * rewrite lookup_insert_ne in Hlook by exact Hne. exact (Hs _ _ Hlook).
Qed.

(** A station that passes the three tests is stored under its id, with
    the timestamp [strptime] read and the [AQI] key as [aqi_shape]
    says. *)
Lemma station_step_valid (stations_data : gmap string station_data)
    (station : element) (sid lu : string) (t : datetime) :
  get station "id" = Some sid -> sid <> "" ->
  get station "lastupdate" = Some lu -> lu <> "" ->
  strptime lu "%d-%m-%Y %H:%M:%S" = Return t ->
  exists entry,
    station_step strptime float stations_data station
      = Return (<[sid := entry]> stations_data) /\
    timestamp entry = t /\
    feed_lat entry = get station "latitude" /\
    feed_lon entry = get station "longitude" /\
    aqi_shape station entry.
Proof.
  intros Hsid Hsid_ne Hlast Hlu_ne Ht. unfold station_step.
  rewrite Hsid, Hlast. simpl.
  apply String.eqb_neq in Hsid_ne. apply String.eqb_neq in Hlu_ne.
  rewrite Hsid_ne, Hlu_ne. simpl. rewrite Ht. simpl.
  destruct (pollutants_loop_floats (findall "Pollutant_Index" station))
    as (pollutants & Hloop & Hfloats).
  rewrite Hloop. simpl. eexists. split; [reflexivity|]. simpl.
  split; [reflexivity|]. split; [reflexivity|]. split; [reflexivity|].
  unfold aqi_shape. simpl.
  destruct (find "Air_Quality_Index" station) as [aqi_elem|]; split.
  - apply lookup_insert_eq.
  - intros k v Hk. rewrite lookup_insert_ne by congruence. apply Hfloats.
  - intros v. apply Hfloats.
  - intros k v _. apply Hfloats.
Qed.

(** A step that changes the dictionary stores a station that passes the
    tests. *)
Lemma station_step_changed (stations_data : gmap string station_data)
    (station : element) :
  station_step strptime float stations_data station = Return stations_data \/
  exists sid lu t,
    get station "id" = Some sid /\ sid <> "" /\
    get station "lastupdate" = Some lu /\ lu <> "" /\
    strptime lu "%d-%m-%Y %H:%M:%S" = Return t.
Proof.
  unfold station_step.
  destruct (truthy (get station "id")) eqn:Hid; [|left; reflexivity].
  destruct (truthy (get station "lastupdate")) eqn:Hlu; [|left; reflexivity].
  destruct (truthy_Some _ Hid) as (sid & Hsid & Hsid_ne).
  destruct (truthy_Some _ Hlu) as (lu & Hlast & Hlu_ne).
  rewrite Hsid, Hlast. simpl.
  destruct (strptime lu _) as [t|e] eqn:Ht; simpl.
  - right. exists sid, lu, t.
    repeat (split; [first [assumption | reflexivity]|]). exact Ht.
  - left. rewrite (strptime_raises _ _ _ Ht). reflexivity.
Qed.

Lemma stations_loop_keys (stations : list element)
    (m0 m : gmap string station_data) :
  for_loop (station_step strptime float) stations m0 = Return m ->
  (forall k, is_Some (m0 !! k) -> is_Some (m !! k)) /\
  (forall station sid lu t, In station stations ->
     get station "id" = Some sid -> sid <> "" ->
     get station "lastupdate" = Some lu -> lu <> "" ->
     strptime lu "%d-%m-%Y %H:%M:%S" = Return t ->
     is_Some (m !! sid)).
Proof.
  revert m0. induction stations as [|st l IH]; intros m0 Hloop; simpl in Hloop.
  - injection Hloop as <-. split; [auto|]. intros st sid lu t [].
  - destruct (station_step strptime float m0 st) as [m1|e] eqn:Hstep;
      simpl in Hloop; [|discriminate].
    destruct (IH m1 Hloop) as [Hmono Hkeys].
    assert (Hgrow : forall k, is_Some (m0 !! k) -> is_Some (m1 !! k)).
    { destruct (station_step_changed m0 st)
        as [Hsame | (sid & lu & t & H1 & H2 & H3 & H4 & H5)].
      - rewrite Hsame in Hstep. injection Hstep as <-. auto.
      - destruct (station_step_valid m0 st sid lu t H1 H2 H3 H4 H5)
          as (entry & Hins & _).
        rewrite Hins in Hstep. injection Hstep as <-.
        intros k Hk. destruct (decide (sid = k)) as [<-|Hne].
        + rewrite lookup_insert_eq. eauto.
        + rewrite lookup_insert_ne by exact Hne. exact Hk. }
    split; [auto|].
    intros station sid lu t [<-|Hin] H1 H2 H3 H4 H5.
    + destruct (station_step_valid m0 st sid lu t H1 H2 H3 H4 H5)
        as (entry & Hins & _).
      rewrite Hins in Hstep. injection Hstep as <-.
      apply Hmono. rewrite lookup_insert_eq. eauto.
    + eapply Hkeys; eassumption.
Qed.

(** Every entry has the [AQI] shape of a station element with its id. *)
Lemma stations_loop_aqi (stations : list element) :
  exists stations_data,
    for_loop (station_step strptime float) stations ∅ = Return stations_data /\
    forall sid entry, stations_data !! sid = Some entry ->
      exists station, In station stations /\ get station "id" = Some sid /\
        aqi_shape station entry.
Proof.
  apply for_loop_invariant.
  - intros sid entry H. rewrite lookup_empty in H. discriminate.
  - intros m st Hst Hm.
    destruct (station_step_changed m st)
      as [Hsame | (sid & lu & t & H1 & H2 & H3 & H4 & H5)].
    + exists m. auto.
    + destruct (station_step_valid m st sid lu t H1 H2 H3 H4 H5)
        as (entry & Hins & _ & _ & _ & Hshape).
      exists (<[sid := entry]> m). split; [exact Hins|].
      intros sid' entry' Hlook. destruct (decide (sid = sid')) as [<-|Hne].
      * rewrite lookup_insert_eq in Hlook. injection Hlook as <-.
        exists st. auto.
      * rewrite lookup_insert_ne in Hlook by exact Hne. auto.
Qed.

End ParsingExtras.

(** X9.  The keys of the mapping [parse_rss_feed] returns are exactly
    the ids of the [Station] elements of the document, at any depth, that
    have a non-empty id and a non-empty [lastupdate] which [strptime]
    reads. *)
Theorem parse_rss_feed_keys
    (fromstring : string -> outcome Fetch.element)
    (strptime : string -> string -> outcome Fetch.datetime)
    (float : string -> outcome Fetch.pyfloat)
    (xml_content : string) (root : Fetch.element)
    (stations_data : gmap string Fetch.station_data) :
  (forall s fmt e, strptime s fmt = Raise e -> e = ValueError) ->
  (forall s e, float s = Raise e -> e = ValueError) ->
  fromstring xml_content = Return root ->
  Fetch.parse_rss_feed fromstring strptime float xml_content = Return stations_data ->
  forall sid,
    is_Some (stations_data !! sid) <->
    exists station lu t, In station (Fetch.iter "Station" root) /\
      Fetch.get station "id" = Some sid /\ sid <> "" /\
      Fetch.get station "lastupdate" = Some lu /\ lu <> "" /\
      strptime lu "%d-%m-%Y %H:%M:%S" = Return t.
Proof.
  intros Hstrp Hfloat Hroot Hparse sid.
  unfold Fetch.parse_rss_feed in Hparse. rewrite Hroot in Hparse. simpl in Hparse.
  destruct (for_loop _ (Fetch.iter "Station" root) ∅) as [m|e] eqn:Hloop;
    simpl in Hparse.
  - injection Hparse as <-. split.
    + intros [entry Hentry].
      destruct (stations_loop strptime float Hstrp Hfloat (Fetch.iter "Station" root))
        as (m' & Hloop' & Horigin).
      rewrite Hloop in Hloop'. injection Hloop' as <-.
      destruct (Horigin sid entry Hentry)
        as (st & lu & Hin & H1 & H2 & H3 & H4 & H5 & _).
      exists st, lu, (Fetch.timestamp entry).
      repeat (split; [assumption|]). assumption.
    + intros (st & lu & t & Hin & H1 & H2 & H3 & H4 & H5).
      destruct (stations_loop_keys strptime float Hstrp Hfloat _ _ _ Hloop)
        as [_ Hkeys].
      eapply Hkeys; eassumption.
  - destruct (stations_loop strptime float Hstrp Hfloat (Fetch.iter "Station" root))
      as (m' & Hloop' & _).
    congruence.
Qed.

(** X10.  The [AQI] key of an entry is never a parsed float when the
    station has an [Air_Quality_Index] child: it holds that child's raw
    [Value] attribute (a string such as "NA", or nothing), overriding a
    [Pollutant_Index] with id [AQI]; and [AQI] is the only key that can
    hold a raw attribute. *)
Theorem parse_rss_feed_aqi_raw
    (fromstring : string -> outcome Fetch.element)
    (strptime : string -> string -> outcome Fetch.datetime)
    (float : string -> outcome Fetch.pyfloat)
    (xml_content : string) (root : Fetch.element)
    (stations_data : gmap string Fetch.station_data) :
  (forall s fmt e, strptime s fmt = Raise e -> e = ValueError) ->
  (forall s e, float s = Raise e -> e = ValueError) ->
  fromstring xml_content = Return root ->
  Fetch.parse_rss_feed fromstring strptime float xml_content = Return stations_data ->
  forall sid entry, stations_data !! sid = Some entry ->
    exists station, In station (Fetch.iter "Station" root) /\
      Fetch.get station "id" = Some sid /\
      Fetch.aqi_shape station entry.
Proof.
  intros Hstrp Hfloat Hroot Hparse.
  unfold Fetch.parse_rss_feed in Hparse. rewrite Hroot in Hparse. simpl in Hparse.
  destruct (stations_loop_aqi strptime float Hstrp Hfloat (Fetch.iter "Station" root))
    as (m & Hloop & Hshape).
  rewrite Hloop in Hparse. simpl in Hparse. injection Hparse as <-.
  exact Hshape.
Qed.

Section IngestFacts.

Import Fetch.

Lemma kept_refl (o : option file) : kept 0 o o.
Proof.
  unfold kept. destruct o as [[|df]|]; try reflexivity.
  exists df. split; [reflexivity|]. split; [auto|lia].
Qed.

Lemma kept_trans (n m : nat) (a b c : option file) :
  kept n a b -> kept m b c -> kept (n + m) a c.
Proof.
  unfold kept. destruct a as [[|df]|].
  - intros ->. auto.
  - intros (df1 & -> & Hsub1 & Hlen1) (df2 & -> & Hsub2 & Hlen2).
    exists df2. split; [reflexivity|]. split; [auto|lia].
  - intros ->. auto.
Qed.

Lemma kept_weaken (n m : nat) (a b : option file) :
  (n <= m)%nat -> kept n a b -> kept m a b.
Proof.
  unfold kept. intros Hle. destruct a as [[|df]|]; auto.
  intros (df' & -> & Hsub & Hlen). exists df'.
  split; [reflexivity|]. split; [auto|lia].
Qed.

(** One call keeps every file, and adds a row only when it returns
    [True]. *)
Lemma update_station_csv_kept (station : station_row) (rss_data : station_data)
    (fs : gmap string file) (path : string) :
  let '(ok, fs') := update_station_csv station rss_data fs in
  kept (if ok then 1 else 0) (fs !! path) (fs' !! path).
Proof.
  destruct (fs !! csv_path_of station) as [[|df]|] eqn:Hfile.
  - rewrite (update_station_csv_no_table station rss_data fs) by congruence.
    apply kept_refl.
  - destruct (update_station_csv_cases station rss_data fs df Hfile)
      as [[-> _] | (-> & _ & _)]; [apply kept_refl|].
    destruct (decide (path = csv_path_of station)) as [->|Hne].
    + rewrite Hfile, lookup_insert_eq. unfold kept, sort_values.
      eexists. split; [reflexivity|]. split.
      * intros r Hr. apply list_elem_of_In. rewrite merge_sort_Permutation.
        apply elem_of_app. left. apply list_elem_of_In. exact Hr.
      * rewrite merge_sort_Permutation, length_app. simpl. lia.
    + rewrite lookup_insert_ne by congruence.
      eapply kept_weaken; [|apply kept_refl]. lia.
  - rewrite (update_station_csv_no_table station rss_data fs) by congruence.
    apply kept_refl.
Qed.

Variable ratio : string -> string -> Q.

(** The loop of [main]: the counters grow in step, and the files keep
    their rows and gain at most one per update. *)
Lemma match_and_update_loop (our_stations : list station_row)
    (l : list (string * station_data)) (m u : nat) (fs : gmap string file) :
  let '(m', u', fs') :=
    fold_left (match_and_update ratio our_stations) l (m, u, fs) in
  (m <= m')%nat /\ (u <= u')%nat /\
  (m' - m <= length l)%nat /\ (u' - u <= m' - m)%nat /\
  forall path, kept (u' - u) (fs !! path) (fs' !! path).
Proof.
  revert m u fs. induction l as [|[rss_name rss_data] l IH]; intros m u fs; simpl.
  - repeat (split; [lia|]). intros path. rewrite Nat.sub_diag. apply kept_refl.
  - destruct (find_matching_station ratio rss_name our_stations) as [row|].
    + pose proof (update_station_csv_kept row rss_data fs) as Hkept.
      destruct (update_station_csv row rss_data fs) as [ok fs1].
      specialize (IH (S m) (if ok then S u else u) fs1).
      destruct (fold_left _ l _) as [[m' u'] fs'].
      destruct IH as (H1 & H2 & H3 & H4 & H5).
      assert (Hu : (u <= (if ok then S u else u))%nat) by (destruct ok; lia).
      assert (Hu1 : ((if ok then S u else u) - u = if ok then 1 else 0)%nat)
        by (destruct ok; lia).
      repeat (split; [destruct ok; lia|]).
      intros path.
      eapply kept_weaken; [|eapply kept_trans; [apply Hkept|apply H5]].
      destruct ok; lia.
    + specialize (IH m u fs).
      destruct (fold_left _ l _) as [[m' u'] fs'].
      destruct IH as (H1 & H2 & H3 & H4 & H5).
      repeat (split; [lia|]). exact H5.
Qed.

End IngestFacts.

Section IngestAborts.

Import Fetch.





Variable ratio : string -> string -> Q.


End IngestAborts.


(** X12.  In the summary of a run, [updated <= matched <= RSS stations]:
    a feed entry is counted as matched at most once, and as updated only
    if it was matched.  (The dictionary is iterated entry by entry:
    [items] is a permutation of its entries.) *)
Theorem ingest_main_counters
    (fromstring : string -> outcome Fetch.element)
    (strptime : string -> string -> outcome Fetch.datetime)
    (float : string -> outcome Fetch.pyfloat)
    (ratio : string -> string -> Q)
    (items : gmap string Fetch.station_data -> list (string * Fetch.station_data))
    (w : Fetch.world) (report : Fetch.summary) (fs' : gmap string Fetch.file) :
  (forall m, items m ≡ₚ map_to_list m) ->
  Fetch.main fromstring strptime float ratio items w = Return (Some report, fs') ->
  (Fetch.updated report <= Fetch.matched report)%nat /\
  (Fetch.matched report <= Fetch.rss_count report)%nat.
Proof.
  unfold Fetch.main. intros Hitems Hmain.
  destruct (Fetch.stations_csv w) as [[our_stations|e]|]; simpl in Hmain;
    try discriminate.
  destruct (Fetch.rss_feed w) as [xml_content|]; [|discriminate].
  destruct (String.eqb xml_content ""); [discriminate|].
  destruct (Fetch.parse_rss_feed _ _ _ xml_content) as [rss_stations|e];
    simpl in Hmain; [|discriminate].
  pose proof (match_and_update_loop ratio our_stations (items rss_stations)
                0 0 (Fetch.station_files w)) as Hloop.
  destruct (fold_left _ (items rss_stations) _) as [[m u] fs].
  injection Hmain as <- <-. simpl.
  destruct Hloop as (_ & _ & Hm & Hu & _).
  rewrite (Hitems rss_stations), length_map_to_list in Hm.
  lia.
Qed.

(** * Further properties of the backfill job *)

#[global] Instance by_station_time_total : Total Backfill.by_station_time.
Proof. intros r1 r2. unfold Backfill.by_station_time. lia. Qed.

Section BackfillExtras.

Import Backfill.

Lemma station_max_fold (l : list wind_row) (m0 : gmap Z Z) :
  let m := fold_left
             (fun m r =>
                match m !! station_id r with
                | Some t => <[station_id r := Z.max t (timestamp r)]> m
                | None => <[station_id r := timestamp r]> m
                end) l m0 in
  (forall sid t0, m0 !! sid = Some t0 -> exists t, m !! sid = Some t /\ (t0 <= t)%Z) /\
  (forall r, In r l -> exists t, m !! station_id r = Some t /\ (timestamp r <= t)%Z) /\
  (forall sid t, m !! sid = Some t ->
     m0 !! sid = Some t \/ exists r, In r l /\ station_id r = sid /\ timestamp r = t).
Proof.
  revert m0. induction l as [|r l IH]; intros m0; simpl.
  - split; [eauto with lia|]. split; [intros r []|auto].
  - set (m1 := match m0 !! station_id r with
               | Some t => <[station_id r := Z.max t (timestamp r)]> m0
               | None => <[station_id r := timestamp r]> m0
               end).
    destruct (IH m1) as (Hmono & Hrows & Hback).
    assert (Hm1 : exists t1, m1 !! station_id r = Some t1 /\
                    (timestamp r <= t1)%Z /\
                    (t1 = timestamp r \/ m0 !! station_id r = Some t1) /\
                    forall t0, m0 !! station_id r = Some t0 -> (t0 <= t1)%Z).
    { subst m1. destruct (m0 !! station_id r) as [t|] eqn:Hr.
      - exists (Z.max t (timestamp r)). rewrite lookup_insert_eq.
        split; [reflexivity|]. split; [lia|]. split.
        + destruct (Z.max_spec t (timestamp r)) as [[_ ->]|[_ ->]]; auto.
        + intros t0 [= <-]. lia.
      - exists (timestamp r). rewrite lookup_insert_eq.
        split; [reflexivity|]. split; [lia|]. split; [auto|discriminate]. }
    assert (Hother : forall sid, sid <> station_id r -> m1 !! sid = m0 !! sid).
    { intros sid Hne. subst m1.
      destruct (m0 !! station_id r); rewrite lookup_insert_ne by congruence;
        reflexivity. }
    destruct Hm1 as (t1 & Ht1 & Hle1 & Hfrom1 & Hold1).
    split; [|split].
    + intros sid t0 H0. destruct (decide (sid = station_id r)) as [->|Hne].
      * destruct (Hmono _ _ Ht1) as (t & Ht & Hle). exists t.
        split; [exact Ht|]. specialize (Hold1 t0 H0). lia.
      * apply Hmono. rewrite Hother by exact Hne. exact H0.
    + intros r' [<-|Hin]; [|auto].
      destruct (Hmono _ _ Ht1) as (t & Ht & Hle). exists t. split; [exact Ht|lia].
    + intros sid t Ht. destruct (Hback sid t Ht) as [H1|(r' & Hin & Hs & Hts)].
      * destruct (decide (sid = station_id r)) as [->|Hne].
        -- rewrite Ht1 in H1. injection H1 as <-.
           destruct Hfrom1 as [->|H0]; [|auto].
           right. exists r. auto.
        -- left. rewrite <- Hother by exact Hne. exact H1.
      * right. exists r'. auto.
Qed.

Lemma max_fold (l : list wind_row) (a : Z) :
  let g := fold_left (fun t r' => Z.max t (timestamp r')) l a in
  (a <= g)%Z /\ (forall r, In r l -> (timestamp r <= g)%Z) /\
  (g = a \/ exists r, In r l /\ timestamp r = g).
Proof.
  revert a. induction l as [|r l IH]; intros a; simpl.
  - split; [lia|]. split; [intros r []|auto].
  - destruct (IH (Z.max a (timestamp r))) as (Hle & Hall & Hatt).
    split; [lia|]. split.
    + intros r' [<-|Hin]; [lia|auto].
    + destruct Hatt as [Heq|(r' & Hin & Hr')].
      * destruct (Z.max_spec a (timestamp r)) as [[_ E]|[_ E]].
        -- right. exists r. split; [left; reflexivity|]. congruence.
        -- left. congruence.
      * right. exists r'. auto.
Qed.

Lemma drop_duplicates_last_id (df : list wind_row) :
  NoDup (key <$> df) -> drop_duplicates_last df = df.
Proof.
  induction df as [|r df IH]; simpl; [reflexivity|].
  intros [Hr Hnd]%NoDup_cons. rewrite IH by exact Hnd.
  case_bool_decide; [contradiction|reflexivity].
Qed.

End BackfillExtras.

(** X13.  [get_station_timestamps] returns two [None]s (file missing,
    unreadable or empty) or two values; in the second case the global
    maximum is the timestamp of some row and bounds every row, and each
    station's maximum is the timestamp of one of its rows, bounds all its
    rows and is at most the global maximum. *)
Theorem get_station_timestamps_max (w : Backfill.world) :
  match Backfill.get_station_timestamps w with
  | (None, None) =>
      Backfill.wind_csv w = None \/
      (exists e, Backfill.wind_csv w = Some (Raise e)) \/
      Backfill.wind_csv w = Some (Return [])
  | (Some station_max, Some global_max) =>
      exists df, Backfill.wind_csv w = Some (Return df) /\
        (exists r, In r df /\ Backfill.timestamp r = global_max) /\
        (forall r, In r df ->
           exists t, station_max !! Backfill.station_id r = Some t /\
             (Backfill.timestamp r <= t <= global_max)%Z) /\
        (forall sid t, station_max !! sid = Some t ->
           exists r, In r df /\ Backfill.station_id r = sid /\
             Backfill.timestamp r = t)
  | _ => False
  end.
Proof.
  unfold Backfill.get_station_timestamps.
  destruct (Backfill.wind_csv w) as [[df|e]|]; [|eauto|auto].
  destruct df as [|r0 df]; [simpl; auto|].
  change (bool_decide (length (r0 :: df) = 0%nat)) with false.
  cbn [Backfill.global_max].
  exists (r0 :: df). split; [reflexivity|].
  destruct (max_fold df (Backfill.timestamp r0)) as (Hle & Hall & Hatt).
  destruct (station_max_fold (r0 :: df) ∅) as (_ & Hrows & Hback).
  fold (Backfill.station_max (r0 :: df)) in Hrows, Hback.
  assert (Hbound : forall r, In r (r0 :: df) ->
            (Backfill.timestamp r
             <= fold_left (fun t r' => Z.max t (Backfill.timestamp r')) df
                  (Backfill.timestamp r0))%Z).
  { intros r [<-|Hin]; [exact Hle|auto]. }
  split; [|split].
  - destruct Hatt as [->|(r & Hin & Hr)].
    + exists r0. split; [left|]; reflexivity.
    + exists r. split; [right|]; assumption.
  - intros r Hin. destruct (Hrows r Hin) as (t & Ht & Hrt).
    exists t. split; [exact Ht|]. split; [exact Hrt|].
    destruct (Hback _ _ Ht) as [H0|(r' & Hin' & _ & <-)].
    + rewrite lookup_empty in H0. discriminate.
    + apply Hbound. exact Hin'.
  - intros sid t Ht. destruct (Hback _ _ Ht) as [H0|H1]; [|exact H1].
    rewrite lookup_empty in H0. discriminate.
Qed.

#[global] Instance by_station_time_trans : Transitive Backfill.by_station_time.
Proof. intros r1 r2 r3. unfold Backfill.by_station_time. lia. Qed.

(** A sorted frame with distinct keys is strictly sorted. *)
Lemma sorted_distinct_strict (df : list Backfill.wind_row) :
  StronglySorted Backfill.by_station_time df ->
  NoDup (Backfill.key <$> df) ->
  StronglySorted Backfill.strictly_before df.
Proof.
  induction 1 as [|r df Hsorted IH Hall]; intros Hnd; [constructor|].
  simpl in Hnd. apply NoDup_cons in Hnd as [Hr Hnd].
  constructor; [auto|].
  rewrite Forall_forall in Hall |- *. intros r' Hin.
  specialize (Hall r' Hin).
  assert (Hkey : Backfill.key r <> Backfill.key r').
  { intros E. apply Hr. rewrite E. apply list_elem_of_fmap. eauto. }
  unfold Backfill.by_station_time in Hall.
  unfold Backfill.strictly_before, Backfill.key in *.
  destruct Hall as [Hlt|[Heq Hle]]; [left; exact Hlt|].
  right. split; [exact Heq|].
  destruct (Z.eq_dec (Backfill.timestamp r) (Backfill.timestamp r')) as [E|Hne];
    [|lia].
  exfalso. apply Hkey. congruence.
Qed.

(** X14.  The table the backfill job saves is strictly sorted by
    station and, within a station, by timestamp: every row comes strictly
    before all later rows, so no two rows share a station and a
    timestamp. *)
Theorem combine_strictly_sorted (existing_df new_df : list Backfill.wind_row) :
  StronglySorted Backfill.strictly_before (Backfill.combine existing_df new_df).
Proof.
  apply sorted_distinct_strict.
  - unfold Backfill.combine, Backfill.sort_values.
    apply (StronglySorted_merge_sort _).
  - rewrite combine_Permutation. apply drop_duplicates_last_NoDup.
Qed.

(** X15.  When the existing rows have distinct keys and end at
    [last_ts], and the new rows have distinct keys and lie after
    [last_ts] (the filter of line 172), deduplication drops nothing: the
    saved table consists of all existing and all new rows. *)
Theorem combine_append_only (existing_df new_df : list Backfill.wind_row)
    (last_ts : Z) :
  NoDup (Backfill.key <$> existing_df) ->
  NoDup (Backfill.key <$> new_df) ->
  (forall r, In r existing_df -> (Backfill.timestamp r <= last_ts)%Z) ->
  (forall r, In r new_df -> (last_ts < Backfill.timestamp r)%Z) ->
  Backfill.combine existing_df new_df ≡ₚ existing_df ++ new_df.
Proof.
  intros Hold Hnew Hle Hlt.
  rewrite combine_Permutation, drop_duplicates_last_id; [reflexivity|].
  rewrite fmap_app. apply NoDup_app. split; [exact Hold|]. split; [|exact Hnew].
  intros k (e & -> & He)%list_elem_of_fmap (n & Hk & Hn)%list_elem_of_fmap.
  apply list_elem_of_In in He, Hn.
  specialize (Hle e He). specialize (Hlt n Hn).
  unfold Backfill.key in Hk. injection Hk as Ht _. lia.
Qed.





Section IngestInvariant.

Import Fetch.

Lemma update_station_csv_distinct (station : station_row) (rss_data : station_data)
    (fs : gmap string file) :
  distinct_timestamps fs ->
  distinct_timestamps (update_station_csv station rss_data fs).2.
Proof.
  intros Hfs.
  destruct (fs !! csv_path_of station) as [[|df]|] eqn:Hfile.
  - rewrite (update_station_csv_no_table station rss_data fs) by congruence.
    exact Hfs.
  - destruct (update_station_csv_cases station rss_data fs df Hfile)
      as [[-> _] | (-> & Hfresh & _)]; [exact Hfs|].
    simpl. intros path df' Hlook.
    destruct (decide (csv_path_of station = path)) as [<-|Hne].
    + rewrite lookup_insert_eq in Hlook. injection Hlook as <-.
      unfold sort_values. rewrite merge_sort_Permutation, fmap_app.
      apply NoDup_app. split; [exact (Hfs _ _ Hfile)|].
      split; [|apply NoDup_singleton].
      intros x Hx Hx'. simpl in Hx'. apply list_elem_of_singleton in Hx'.
      subst x. exact (Hfresh Hx).
    + rewrite lookup_insert_ne in Hlook by exact Hne. exact (Hfs _ _ Hlook).
  - rewrite (update_station_csv_no_table station rss_data fs) by congruence.
    exact Hfs.
Qed.

Variable ratio : string -> string -> Q.

Lemma match_and_update_distinct (our_stations : list station_row)
    (l : list (string * station_data)) (state : nat * nat * gmap string file) :
  distinct_timestamps state.2 ->
  distinct_timestamps (fold_left (match_and_update ratio our_stations) l state).2.
Proof.
  revert state. induction l as [|[rss_name rss_data] l IH];
    intros [[m u] fs] Hfs; simpl; [exact Hfs|].
  apply IH. destruct (find_matching_station ratio rss_name our_stations) as [row|];
    [|exact Hfs].
  pose proof (update_station_csv_distinct row rss_data fs Hfs) as Hd.
  destruct (update_station_csv row rss_data fs) as [ok fs1]. exact Hd.
Qed.

End IngestInvariant.

(** X17.  Deduplication holds for a whole run of the ingester: if every
    readable station file has pairwise distinct timestamps before the run
    of [main], every one has after it, however many feed entries match
    the same station. *)
Theorem ingest_main_keeps_distinct
    (fromstring : string -> outcome Fetch.element)
    (strptime : string -> string -> outcome Fetch.datetime)
    (float : string -> outcome Fetch.pyfloat)
    (ratio : string -> string -> Q)
    (items : gmap string Fetch.station_data -> list (string * Fetch.station_data))
    (w : Fetch.world) (report : option Fetch.summary)
    (fs' : gmap string Fetch.file) :
  Fetch.distinct_timestamps (Fetch.station_files w) ->
  Fetch.main fromstring strptime float ratio items w = Return (report, fs') ->
  Fetch.distinct_timestamps fs'.
Proof.
  unfold Fetch.main. intros Hfs Hmain.
  destruct (Fetch.stations_csv w) as [[our_stations|e]|]; simpl in Hmain;
    [| discriminate | injection Hmain as <- <-; exact Hfs].
  destruct (Fetch.rss_feed w) as [xml_content|];
    [| injection Hmain as <- <-; exact Hfs].
  destruct (String.eqb xml_content "");
    [injection Hmain as <- <-; exact Hfs|].
  destruct (Fetch.parse_rss_feed _ _ _ xml_content) as [rss_stations|e];
    simpl in Hmain; [|discriminate].
  pose proof (match_and_update_distinct ratio our_stations (items rss_stations)
                (0%nat, 0%nat, Fetch.station_files w) Hfs) as Hloop.
  destruct (fold_left _ (items rss_stations) _) as [[m u] fs].
  injection Hmain as <- <-. exact Hloop.
Qed.

Lemma for_loop_app {S A : Type} (body : S -> A -> outcome S) (l1 l2 : list A)
    (s : S) :
  for_loop body (l1 ++ l2) s = (s1 ← for_loop body l1 s; for_loop body l2 s1).
Proof.
  revert s. induction l1 as [|a l1 IH]; intros s; simpl; [reflexivity|].
  destruct (body s a) as [s'|e]; simpl; [apply IH|reflexivity].
Qed.

Section ParsingLast.

Import Fetch.

Variable strptime : string -> string -> outcome datetime.
Variable float : string -> outcome pyfloat.

Hypothesis strptime_raises :
  forall s fmt e, strptime s fmt = Raise e -> e = ValueError.
Hypothesis float_raises :
  forall s e, float s = Raise e -> e = ValueError.

(** Stations that do not pass the tests under the id [sid] leave the
    entry under [sid] alone. *)
Lemma stations_loop_other (stations : list element) (sid : string)
    (m0 m : gmap string station_data) :
  for_loop (station_step strptime float) stations m0 = Return m ->
  (forall station lu t, In station stations ->
     get station "id" = Some sid ->
     get station "lastupdate" = Some lu -> lu <> "" ->
     strptime lu "%d-%m-%Y %H:%M:%S" = Return t -> False) ->
  m !! sid = m0 !! sid.
Proof.
  revert m0. induction stations as [|st l IH]; intros m0 Hloop Hnone;
    simpl in Hloop.
  - injection Hloop as <-. reflexivity.
  - destruct (station_step strptime float m0 st) as [m1|e] eqn:Hstep;
      simpl in Hloop; [|discriminate].
    rewrite (IH m1 Hloop).
    + destruct (station_step_changed strptime float strptime_raises m0 st)
        as [Hsame | (sid' & lu & t & H1 & H2 & H3 & H4 & H5)].
      * rewrite Hsame in Hstep. injection Hstep as <-. reflexivity.
      * destruct (station_step_valid strptime float float_raises
                    m0 st sid' lu t H1 H2 H3 H4 H5) as (entry & Hins & _).
        rewrite Hins in Hstep. injection Hstep as <-.
        apply lookup_insert_ne. intros ->.
        exact (Hnone st lu t (or_introl eq_refl) H1 H3 H4 H5).
    + intros station lu t Hin. apply Hnone. right. exact Hin.
Qed.

Lemma stations_loop_returns (stations : list element)
    (m0 : gmap string station_data) :
  exists m, for_loop (station_step strptime float) stations m0 = Return m.
Proof.
  destruct (for_loop_invariant (station_step strptime float) (fun _ => True)
              stations m0 I) as (m & Hm & _); [|eauto].
  intros s st _ _.
  destruct (station_step_changed strptime float strptime_raises s st)
    as [Hsame | (sid & lu & t & H1 & H2 & H3 & H4 & H5)]; [eauto|].
  destruct (station_step_valid strptime float float_raises s st sid lu t
              H1 H2 H3 H4 H5) as (entry & Hins & _).
  eauto.
Qed.

End ParsingLast.

(** X18.  The entry under an id comes from the last [Station] element
    with that id that passes the tests: its timestamp is what [strptime]
    read from that element's [lastupdate], its latitude and longitude are
    that element's raw attributes, and its [AQI] key has that element's
    shape; earlier elements with the same id are overwritten. *)
Theorem parse_rss_feed_last_wins
    (fromstring : string -> outcome Fetch.element)
    (strptime : string -> string -> outcome Fetch.datetime)
    (float : string -> outcome Fetch.pyfloat)
    (xml_content : string) (root : Fetch.element)
    (stations_data : gmap string Fetch.station_data)
    (before after : list Fetch.element) (station : Fetch.element)
    (sid lu : string) (t : Fetch.datetime) :
  (forall s fmt e, strptime s fmt = Raise e -> e = ValueError) ->
  (forall s e, float s = Raise e -> e = ValueError) ->
  fromstring xml_content = Return root ->
  Fetch.parse_rss_feed fromstring strptime float xml_content = Return stations_data ->
  Fetch.iter "Station" root = (before ++ station :: after)%list ->
  Fetch.get station "id" = Some sid -> sid <> "" ->
  Fetch.get station "lastupdate" = Some lu -> lu <> "" ->
  strptime lu "%d-%m-%Y %H:%M:%S" = Return t ->
  (forall later lu' t', In later after ->
     Fetch.get later "id" = Some sid ->
     Fetch.get later "lastupdate" = Some lu' -> lu' <> "" ->
     strptime lu' "%d-%m-%Y %H:%M:%S" = Return t' -> False) ->
  exists entry, stations_data !! sid = Some entry /\
    Fetch.timestamp entry = t /\
    Fetch.feed_lat entry = Fetch.get station "latitude" /\
    Fetch.feed_lon entry = Fetch.get station "longitude" /\
    Fetch.aqi_shape station entry.
Proof.
  intros Hstrp Hfloat Hroot Hparse Hiter Hsid Hsid_ne Hlast Hlu_ne Ht Hafter.
  unfold Fetch.parse_rss_feed in Hparse. rewrite Hroot in Hparse. simpl in Hparse.
  rewrite Hiter, for_loop_app in Hparse.
  destruct (stations_loop_returns strptime float Hstrp Hfloat before ∅)
    as (m1 & Hbefore).
  rewrite Hbefore in Hparse. simpl in Hparse.
  destruct (station_step_valid strptime float Hfloat m1 station sid lu t
              Hsid Hsid_ne Hlast Hlu_ne Ht)
    as (entry & Hins & H1 & H2 & H3 & H4).
  rewrite Hins in Hparse. simpl in Hparse.
  destruct (stations_loop_returns strptime float Hstrp Hfloat after
              (<[sid := entry]> m1)) as (m & Hloop).
  rewrite Hloop in Hparse. simpl in Hparse. injection Hparse as <-.
  exists entry. split; [|auto].
  rewrite (stations_loop_other strptime float Hstrp Hfloat after sid _ _
             Hloop Hafter).
  apply lookup_insert_eq.
Qed.

(** * The further properties on the sample data *)

Lemma sample_parse :
  Fetch.parse_rss_feed Fetch.sample_fromstring Fetch.sample_strptime
    Fetch.sample_float Fetch.sample_xml = Return Fetch.sample_stations_data.
Proof. vm_compute. reflexivity. Qed.

Lemma sample_root_parsed :
  Fetch.sample_fromstring Fetch.sample_xml = Return Fetch.sample_root.
Proof. vm_compute. reflexivity. Qed.

Lemma parse_rss_feed_keys_witness :
  (forall s fmt e, Fetch.sample_strptime s fmt = Raise e -> e = ValueError) /\
  (forall s e, Fetch.sample_float s = Raise e -> e = ValueError) /\
  Fetch.sample_fromstring Fetch.sample_xml = Return Fetch.sample_root /\
  Fetch.parse_rss_feed Fetch.sample_fromstring Fetch.sample_strptime
    Fetch.sample_float Fetch.sample_xml = Return Fetch.sample_stations_data /\
  forall sid,
    is_Some (Fetch.sample_stations_data !! sid) <->
    exists station lu t, In station (Fetch.iter "Station" Fetch.sample_root) /\
      Fetch.get station "id" = Some sid /\ sid <> "" /\
      Fetch.get station "lastupdate" = Some lu /\ lu <> "" /\
      Fetch.sample_strptime lu "%d-%m-%Y %H:%M:%S" = Return t.
Proof.
  split; [exact sample_strptime_raises|].
  split; [exact sample_float_raises|].
  split; [exact sample_root_parsed|].
  split; [exact sample_parse|].
  exact (parse_rss_feed_keys Fetch.sample_fromstring Fetch.sample_strptime
           Fetch.sample_float Fetch.sample_xml Fetch.sample_root
           Fetch.sample_stations_data sample_strptime_raises sample_float_raises
           sample_root_parsed sample_parse).
Defined.

Lemma parse_rss_feed_aqi_raw_witness :
  (forall s fmt e, Fetch.sample_strptime s fmt = Raise e -> e = ValueError) /\
  (forall s e, Fetch.sample_float s = Raise e -> e = ValueError) /\
  Fetch.sample_fromstring Fetch.sample_xml = Return Fetch.sample_root /\
  Fetch.parse_rss_feed Fetch.sample_fromstring Fetch.sample_strptime
    Fetch.sample_float Fetch.sample_xml = Return Fetch.sample_stations_data /\
  forall sid entry, Fetch.sample_stations_data !! sid = Some entry ->
    exists station, In station (Fetch.iter "Station" Fetch.sample_root) /\
      Fetch.get station "id" = Some sid /\
      Fetch.aqi_shape station entry.
Proof.
  split; [exact sample_strptime_raises|].
  split; [exact sample_float_raises|].
  split; [exact sample_root_parsed|].
  split; [exact sample_parse|].
  exact (parse_rss_feed_aqi_raw Fetch.sample_fromstring Fetch.sample_strptime
           Fetch.sample_float Fetch.sample_xml Fetch.sample_root
           Fetch.sample_stations_data sample_strptime_raises sample_float_raises
           sample_root_parsed sample_parse).
Defined.

Lemma duplicate_parse :
  Fetch.parse_rss_feed Fetch.duplicate_fromstring Fetch.sample_strptime
    Fetch.sample_float Fetch.duplicate_xml = Return Fetch.sample_stations_data.
Proof. vm_compute. reflexivity. Qed.

Lemma duplicate_root_parsed :
  Fetch.duplicate_fromstring Fetch.duplicate_xml = Return Fetch.duplicate_root.
Proof. vm_compute. reflexivity. Qed.

Lemma duplicate_iter :
  Fetch.iter "Station" Fetch.duplicate_root
  = ([Fetch.sample_station_old] ++ Fetch.sample_station_1
        :: [Fetch.sample_station_3])%list.
Proof. vm_compute. reflexivity. Qed.

Lemma duplicate_later_stations (later : Fetch.element) (lu' : string)
    (t' : Fetch.datetime) :
  In later [Fetch.sample_station_3] ->
  Fetch.get later "id" = Some "Anand Vihar, Delhi - DPCC" ->
  Fetch.get later "lastupdate" = Some lu' -> lu' <> "" ->
  Fetch.sample_strptime lu' "%d-%m-%Y %H:%M:%S" = Return t' -> False.
Proof.
  intros [<-|[]] Hid _ _ _; vm_compute in Hid; discriminate.
Qed.

Lemma parse_rss_feed_last_wins_witness :
  (forall s fmt e, Fetch.sample_strptime s fmt = Raise e -> e = ValueError) /\
  (forall s e, Fetch.sample_float s = Raise e -> e = ValueError) /\
  Fetch.duplicate_fromstring Fetch.duplicate_xml = Return Fetch.duplicate_root /\
  Fetch.parse_rss_feed Fetch.duplicate_fromstring Fetch.sample_strptime
    Fetch.sample_float Fetch.duplicate_xml = Return Fetch.sample_stations_data /\
  Fetch.iter "Station" Fetch.duplicate_root
  = ([Fetch.sample_station_old] ++ Fetch.sample_station_1
        :: [Fetch.sample_station_3])%list /\
  Fetch.get Fetch.sample_station_old "id" = Some "Anand Vihar, Delhi - DPCC" /\
  Fetch.get Fetch.sample_station_old "latitude" = Some "0.0" /\
  Fetch.get Fetch.sample_station_1 "id" = Some "Anand Vihar, Delhi - DPCC" /\
  "Anand Vihar, Delhi - DPCC" <> "" /\
  Fetch.get Fetch.sample_station_1 "lastupdate" = Some "07-01-2026 22:00:00" /\
  "07-01-2026 22:00:00" <> "" /\
  Fetch.sample_strptime "07-01-2026 22:00:00" "%d-%m-%Y %H:%M:%S"
    = Return 1767823200%Z /\
  exists entry,
    Fetch.sample_stations_data !! "Anand Vihar, Delhi - DPCC" = Some entry /\
    Fetch.timestamp entry = 1767823200%Z /\
    Fetch.feed_lat entry = Fetch.get Fetch.sample_station_1 "latitude" /\
    Fetch.feed_lon entry = Fetch.get Fetch.sample_station_1 "longitude" /\
    Fetch.aqi_shape Fetch.sample_station_1 entry.
Proof.
  assert (H1 : Fetch.get Fetch.sample_station_1 "id"
               = Some "Anand Vihar, Delhi - DPCC") by (vm_compute; reflexivity).
  assert (H2 : "Anand Vihar, Delhi - DPCC" <> "") by discriminate.
  assert (H3 : Fetch.get Fetch.sample_station_1 "lastupdate"
               = Some "07-01-2026 22:00:00") by (vm_compute; reflexivity).
  assert (H4 : "07-01-2026 22:00:00" <> "") by discriminate.
  assert (H5 : Fetch.sample_strptime "07-01-2026 22:00:00" "%d-%m-%Y %H:%M:%S"
               = Return 1767823200%Z) by (vm_compute; reflexivity).
  split; [exact sample_strptime_raises|].
  split; [exact sample_float_raises|].
  split; [exact duplicate_root_parsed|].
  split; [exact duplicate_parse|].
  split; [exact duplicate_iter|].
  split; [vm_compute; reflexivity|]. split; [vm_compute; reflexivity|].
  split; [exact H1|]. split; [exact H2|]. split; [exact H3|].
  split; [exact H4|]. split; [exact H5|].
  exact (parse_rss_feed_last_wins Fetch.duplicate_fromstring Fetch.sample_strptime
           Fetch.sample_float Fetch.duplicate_xml Fetch.duplicate_root
           Fetch.sample_stations_data [Fetch.sample_station_old]
           [Fetch.sample_station_3]
           Fetch.sample_station_1 _ _ _
           sample_strptime_raises sample_float_raises
           duplicate_root_parsed duplicate_parse duplicate_iter H1 H2 H3 H4 H5
           duplicate_later_stations).
Defined.

Lemma sample_fs_distinct : Fetch.distinct_timestamps Fetch.sample_fs.
Proof.
  intros path df Hlook. unfold Fetch.sample_fs in Hlook.
  apply lookup_singleton_Some in Hlook as [_ [= <-]].
  simpl. apply NoDup_cons. split; [|apply NoDup_singleton].
  intros H%list_elem_of_singleton. discriminate.
Qed.

Lemma sample_run :
  Fetch.main Fetch.sample_fromstring Fetch.sample_strptime Fetch.sample_float
    Fetch.prefix_ratio map_to_list Fetch.sample_world
  = Return (Some Fetch.sample_report, Fetch.sample_fs_after).
Proof. vm_compute. reflexivity. Qed.




Lemma ingest_main_counters_witness :
  (forall m : gmap string Fetch.station_data, map_to_list m ≡ₚ map_to_list m) /\
  Fetch.main Fetch.sample_fromstring Fetch.sample_strptime Fetch.sample_float
    Fetch.prefix_ratio map_to_list Fetch.sample_world
  = Return (Some Fetch.sample_report, Fetch.sample_fs_after) /\
  (Fetch.updated Fetch.sample_report <= Fetch.matched Fetch.sample_report)%nat /\
  (Fetch.matched Fetch.sample_report <= Fetch.rss_count Fetch.sample_report)%nat.
Proof.
  assert (H0 : forall m : gmap string Fetch.station_data,
             map_to_list m ≡ₚ map_to_list m) by reflexivity.
  split; [exact H0|]. split; [exact sample_run|].
  exact (ingest_main_counters Fetch.sample_fromstring Fetch.sample_strptime
           Fetch.sample_float Fetch.prefix_ratio map_to_list Fetch.sample_world
           Fetch.sample_report Fetch.sample_fs_after H0 sample_run).
Defined.

Lemma ingest_main_keeps_distinct_witness :
  Fetch.distinct_timestamps (Fetch.station_files Fetch.sample_world) /\
  Fetch.main Fetch.sample_fromstring Fetch.sample_strptime Fetch.sample_float
    Fetch.prefix_ratio map_to_list Fetch.sample_world
  = Return (Some Fetch.sample_report, Fetch.sample_fs_after) /\
  Fetch.distinct_timestamps Fetch.sample_fs_after.
Proof.
  split; [exact sample_fs_distinct|]. split; [exact sample_run|].
  exact (ingest_main_keeps_distinct Fetch.sample_fromstring Fetch.sample_strptime
           Fetch.sample_float Fetch.prefix_ratio map_to_list Fetch.sample_world
           (Some Fetch.sample_report) Fetch.sample_fs_after
           sample_fs_distinct sample_run).
Defined.

Lemma combine_append_only_witness :
  let e := [Backfill.sample_wind_row 1767225600 11] in
  let n := [Backfill.sample_wind_row 1767229200 12] in
  NoDup (Backfill.key <$> e) /\ NoDup (Backfill.key <$> n) /\
  (forall r, In r e -> (Backfill.timestamp r <= 1767225600)%Z) /\
  (forall r, In r n -> (1767225600 < Backfill.timestamp r)%Z) /\
  Backfill.combine e n ≡ₚ e ++ n.
Proof.
  intros e n.
  assert (H1 : NoDup (Backfill.key <$> e)) by apply NoDup_singleton.
  assert (H2 : NoDup (Backfill.key <$> n)) by apply NoDup_singleton.
  assert (H3 : forall r, In r e -> (Backfill.timestamp r <= 1767225600)%Z)
    by (intros r [<-|[]]; simpl; lia).
  assert (H4 : forall r, In r n -> (1767225600 < Backfill.timestamp r)%Z)
    by (intros r [<-|[]]; simpl; lia).
  split; [exact H1|]. split; [exact H2|]. split; [exact H3|]. split; [exact H4|].
  exact (combine_append_only e n 1767225600 H1 H2 H3 H4).
Defined.
